(** * Check-in scheduling: [lib/flight.py] and [lib/account.py]

    A shallow embedding of the per-flight check-in timer ([Flight]) and of
    the reservation scheduler and notifier ([Account]), followed by the
    properties of the design document that concern them.

    Python objects are records, and a [Flight] keeps the identity of the
    object it stands for.  Statements run in a state-and-exception monad over
    a [World]: the account as the running process sees it, the wall clock,
    and the chronological list of everything the process did to the outside
    (spawned processes, requests, sleeps, prints, notifications).
    Collaborators whose code is not part of the two modules (the HTTP
    helper, the header-fetching web driver, the time-zone data, the
    standard library's date parsing and printing) are the fields of an
    environment [Env]. *)

From Stdlib Require Import ZArith List String Bool Lia.
Import ListNotations.

Local Open Scope string_scope.
Local Open Scope list_scope.
Local Open Scope Z_scope.

(** ** Dates and durations *)

(** A naive [datetime] is the number of microseconds since the start of the
    proleptic Gregorian calendar; a [timedelta] is a number of microseconds.
    Python's datetime arithmetic is exact integer arithmetic on these. *)
Module datetime.

Definition datetime := Z.
Definition timedelta := Z.

(** [timedelta(days=d, seconds=s, minutes=m)] *)
Definition mk_timedelta (days seconds minutes : Z) : timedelta :=
  (days * 86400 + seconds + minutes * 60) * 1000000.

(** A pytz time zone, as far as [localize] and [astimezone] use it: the
    UTC offset (a [timedelta]) in force at a given naive local time. *)
Record tzinfo := { utcoffset : datetime -> timedelta }.

(** [tz.localize(d).astimezone(pytz.utc).replace(tzinfo=None)] *)
Definition localize_to_utc (tz : tzinfo) (d : datetime) : datetime :=
  d - utcoffset tz d.

End datetime.
Import datetime.

(** ** Payloads *)

Definition Headers := list (string * string).

Record Airport := { airport_name : string; airport_code : string }.

(** One element of [response["viewReservationViewPage"]["bounds"]]. *)
Record Bound := {
  departureStatus : string;
  departureDate : string;
  departureTime : string;
  departureAirport : Airport;
  arrivalAirport : Airport }.

Record Passenger := {
  passenger_name : string;
  boardingGroup : string;
  boardingPosition : string }.

Record BoardingFlight := { passengers : list Passenger }.

(** The JSON documents [make_request] answers with, by their top-level key. *)
Inductive Response :=
| ViewReservationViewPage (bounds : list Bound)
| CheckInViewReservationPage (href : string) (body : string)
| CheckInConfirmationPage (boarding_flights : list BoardingFlight).

(** The fourth argument of [make_request]. *)
Inductive Payload :=
| Names (first_name last_name : string)
| Body (body : string).

Record Reservation := { confirmationNumber : string }.

(** ** Objects *)

(** A [Flight] object.  [oid] is the identity of the object: two records
    stand for the same object exactly when they are equal.  The fields are
    set once by the constructor and never assigned again. *)
Record Flight := {
  oid : nat;
  confirmation_number : string;
  departure_time : datetime;
  departure_airport : string;
  destination_airport : string }.

Record Config := {
  notification_urls : list string;
  notification_level : Z }.

Record Account := {
  first_name : string;
  last_name : string;
  flights : list Flight;
  headers : Headers;
  config : Config }.

(** ** Effects *)

(** What a process does that can be seen from outside it, and the two
    calls the unit tests of the repository watch ([send_notification] and
    [refresh_headers]):
    - [Process_start f]: [Process(target=f._set_check_in).start()];
    - [Print text]: [print(text)];
    - [Sleep d]: [time.sleep] of the duration [d], once accepted;
    - [Refresh_headers h]: [Account.refresh_headers] stored the headers [h];
    - [Request method site h info]: a call of [make_request];
    - [Send_notification body level]: a call of [Account.send_notification];
    - [Apprise_notify urls title body]: [apprise.Apprise(urls).notify(...)],
      the hand-over to the notification transport. *)
Inductive Event :=
| Process_start (target : Flight)
| Print (text : string)
| Sleep (duration : timedelta)
| Refresh_headers (h : Headers)
| Request (method site : string) (h : Headers) (info : Payload)
| Send_notification (body : string) (level : option Z)
| Apprise_notify (urls : list string) (title body : string).

Inductive Exception :=
| CheckInError (reason : string)
| KeyError (key : string)
| ValueError (message : string)
| AttributeError (message : string)
| UnknownTimeZoneError (zone : string)
| LoginError (message : string) (status : Z).

Record World := {
  account : Account;
  now : datetime;
  objects : nat;
  requests : nat;
  events : list Event }.

Inductive Outcome (A : Type) :=
| Return (a : A) (w : World)
| Raise (e : Exception) (w : World).
Arguments Return {A} a w.
Arguments Raise {A} e w.

Definition M (A : Type) := World -> Outcome A.

Definition ret {A} (a : A) : M A := fun w => Return a w.

Definition bind {A B} (m : M A) (k : A -> M B) : M B :=
  fun w => match m w with
           | Return a w' => k a w'
           | Raise e w' => Raise e w'
           end.

Definition raise {A} (e : Exception) : M A := fun w => Raise e w.

Declare Scope py_scope.
Delimit Scope py_scope with py.
Notation "x <- m ;; k" := (bind m (fun x => k))
  (at level 100, m at next level, right associativity) : py_scope.
Notation "m ;; k" := (bind m (fun _ => k))
  (at level 100, right associativity) : py_scope.
Local Open Scope py_scope.

(** The world an outcome ends in, whether it returned or raised. *)
Definition final {A} (o : Outcome A) : World :=
  match o with Return _ w => w | Raise _ w => w end.

Definition get : M World := fun w => Return w w.

Definition emit (e : Event) : M unit :=
  fun w => Return tt {| account := account w; now := now w; objects := objects w;
                        requests := requests w; events := events w ++ [e] |}.

Definition set_account (a : Account) : M unit :=
  fun w => Return tt {| account := a; now := now w; objects := objects w;
                        requests := requests w; events := events w |}.

Definition advance (d : timedelta) : M unit :=
  fun w => Return tt {| account := account w; now := now w + d; objects := objects w;
                        requests := requests w; events := events w |}.

(** Allocation of a new object: its identity is the number of objects
    allocated before it. *)
Definition new_object : M nat :=
  fun w => Return (objects w)
             {| account := account w; now := now w; objects := S (objects w);
                requests := requests w; events := events w |}.

Definition count_request : M nat :=
  fun w => Return (requests w)
             {| account := account w; now := now w; objects := objects w;
                requests := S (requests w); events := events w |}.

(** [for x in xs: body(x)] *)
Fixpoint for_each {A} (xs : list A) (body : A -> M unit) : M unit :=
  match xs with
  | [] => ret tt
  | x :: rest => body x ;; for_each rest body
  end.

(** [try: m  except CheckInError as err: handler(err)] *)
Definition try_except_CheckInError {A} (m : M A) (handler : string -> M A) : M A :=
  fun w => match m w with
           | Raise (CheckInError reason) w' => handler reason w'
           | o => o
           end.

Definition set_flights (a : Account) (fl : list Flight) : Account :=
  {| first_name := first_name a; last_name := last_name a; flights := fl;
     headers := headers a; config := config a |}.

Definition set_headers (a : Account) (h : Headers) : Account :=
  {| first_name := first_name a; last_name := last_name a; flights := flights a;
     headers := h; config := config a |}.

(** The calls of [send_notification] among a list of events, in order. *)
Fixpoint notifications (evs : list Event) : list (string * option Z) :=
  match evs with
  | [] => []
  | Send_notification b l :: rest => (b, l) :: notifications rest
  | _ :: rest => notifications rest
  end.

(** The bodies handed to the notification transport, in order. *)
Fixpoint delivered (evs : list Event) : list string :=
  match evs with
  | [] => []
  | Apprise_notify _ _ b :: rest => b :: delivered rest
  | _ :: rest => delivered rest
  end.

(** The requests made, in order. *)
Fixpoint requested (evs : list Event) : list (string * string) :=
  match evs with
  | [] => []
  | Request m s _ _ :: rest => (m, s) :: requested rest
  | _ :: rest => requested rest
  end.

(** The processes started, in order. *)
Fixpoint started (evs : list Event) : list Flight :=
  match evs with
  | [] => []
  | Process_start f :: rest => f :: started rest
  | _ :: rest => started rest
  end.

(** [s] occurs in [msg]. *)
Definition mentions (s msg : string) : Prop :=
  exists before after, msg = (before ++ s ++ after)%string.

(** ** Collaborators *)

(** What the two modules import and do not define.  [make_request] may
    answer differently each time it is called, so it sees the number of
    requests the process made before.  The header fetch of the web driver
    ([WebDriver().get_info()]) started at a given time takes
    [WebDriver_elapsed] and ends in the headers or in an exception.
    [NotificationLevel] lives in [lib/general.py]; its two members are
    integers. *)
Record Env := {
  airport_timezones : string -> option string;
  pytz_timezone : string -> option tzinfo;
  strptime : string -> option datetime;
  str_datetime : datetime -> string;
  make_request_reply : nat -> string -> string -> Headers -> Payload -> Exception + Response;
  WebDriver_headers : datetime -> Exception + Headers;
  WebDriver_elapsed : datetime -> timedelta;
  WebDriver_reservations : M (list Reservation);
  NotificationLevel_INFO : Z;
  NotificationLevel_ERROR : Z }.

Definition CHECKIN_URL := "mobile-air-operations/v1/mobile-air-operations/page/check-in/".
Definition MANUAL_CHECKIN_URL := "https://mobile.southwest.com/check-in".
Definition VIEW_RESERVATION_URL := "mobile-air-booking/v1/mobile-air-booking/page/view-reservation/".

Section Program.

Variable E : Env.

(** [datetime.utcnow()].  The clock of a world moves with the two waits the
    code asks for, the sleeps and the header fetch; the time the other
    statements take is not counted, so that the clock of a world is the
    earliest the wall clock can show there. *)
Definition utcnow : M datetime := fun w => Return (now w) w.

(** [time.sleep(seconds)]: refuses a negative length, otherwise the clock
    moves on by the length.  The length is kept in microseconds, the unit of
    the [timedelta] whose [total_seconds()] it is. *)
Definition time_sleep (d : timedelta) : M unit :=
  if d <? 0 then raise (ValueError "sleep length must be non-negative")
  else (emit (Sleep d) ;; advance d).

Definition print (text : string) : M unit := emit (Print text).

(** [make_request(method, site, headers, info)] *)
Definition make_request (method site : string) (h : Headers) (info : Payload)
  : M Response :=
  n <- count_request ;;
  emit (Request method site h info) ;;
  match make_request_reply E n method site h info with
  | inl e => raise e
  | inr r => ret r
  end.

(** *** [Account.refresh_headers]

    The fetch takes its time whether it succeeds or not; when it raises,
    the assignment to [self.headers] is not reached. *)
Definition refresh_headers : M unit :=
  w <- get ;;
  advance (WebDriver_elapsed E (now w)) ;;
  match WebDriver_headers E (now w) with
  | inl e => raise e
  | inr h =>
      w <- get ;;
      set_account (set_headers (account w) h) ;;
      emit (Refresh_headers h)
  end.

(** *** [Account.send_notification] *)

(** Python's truth value of [level]: [None] and [0] are false. *)
Definition truthy (level : option Z) : bool :=
  match level with
  | None => false
  | Some l => negb (l =? 0)
  end.

Definition below (level : option Z) (minimum : Z) : bool :=
  match level with
  | None => false
  | Some l => l <? minimum
  end.

Definition send_notification (body : string) (level : option Z) : M unit :=
  emit (Send_notification body level) ;;
  w <- get ;;
  let cfg := config (account w) in
  if (List.length (notification_urls cfg) =? 0)%nat then ret tt
  else if truthy level && below level (notification_level cfg) then ret tt
  else
    let title := "Auto Southwest Check-in Script" in
    emit (Apprise_notify (notification_urls cfg) title body).

(** *** [Flight] *)

(** [Flight._get_airport_timezone] *)
Definition _get_airport_timezone (airport_code : string) : M tzinfo :=
  match airport_timezones E airport_code with
  | None => raise (KeyError airport_code)
  | Some zone =>
      match pytz_timezone E zone with
      | None => raise (UnknownTimeZoneError zone)
      | Some tz => ret tz
      end
  end.

(** [Flight._convert_to_utc] *)
Definition _convert_to_utc (flight_date : string) (airport_timezone : tzinfo)
  : M datetime :=
  match strptime E flight_date with
  | None => raise (ValueError "time data does not match format '%Y-%m-%d %H:%M'")
  | Some flight_date =>
      let utc_time := localize_to_utc airport_timezone flight_date in
      ret utc_time
  end.

(** [Flight._get_flight_time] *)
Definition _get_flight_time (flight : Bound) : M datetime :=
  let flight_date := (departureDate flight ++ " " ++ departureTime flight)%string in
  let departure_airport_code := airport_code (departureAirport flight) in
  airport_timezone <- _get_airport_timezone departure_airport_code ;;
  flight_time <- _convert_to_utc flight_date airport_timezone ;;
  ret flight_time.

(** [Flight.__init__], with [Flight._get_flight_info] in its place: the
    object is allocated, its fields are read off the bound, and the process
    that runs [_set_check_in] is started. *)
Definition Flight__init__ (confirmation_number : string) (flight : Bound) : M Flight :=
  id <- new_object ;;
  let departure_airport := airport_name (departureAirport flight) in
  let destination_airport := airport_name (arrivalAirport flight) in
  departure_time <- _get_flight_time flight ;;
  let self := {| oid := id;
                 confirmation_number := confirmation_number;
                 departure_time := departure_time;
                 departure_airport := departure_airport;
                 destination_airport := destination_airport |} in
  emit (Process_start self) ;;
  ret self.

(** The message [Flight._wait_for_check_in] prints. *)
Definition scheduling_message (self : Flight) (a : Account) (checkin_time : datetime)
  : string :=
  ("Scheduling checkin to flight from '" ++ departure_airport self
   ++ "' to '" ++ destination_airport self ++ "' for "
   ++ first_name a ++ " " ++ last_name a
   ++ " at " ++ str_datetime E checkin_time ++ " UTC
")%string.

(** [Flight._wait_for_check_in] *)
Definition _wait_for_check_in (self : Flight) (checkin_time : datetime) : M unit :=
  current_time <- utcnow ;;
  if checkin_time <=? current_time then ret tt
  else
    w <- get ;;
    print (scheduling_message self (account w) checkin_time) ;;
    let sleep_time := checkin_time - current_time - mk_timedelta 0 0 10 in
    (if 0 <? sleep_time then (time_sleep sleep_time ;; refresh_headers) else ret tt) ;;
    current_time <- utcnow ;;
    let sleep_time := checkin_time - current_time in
    time_sleep sleep_time.

(** The message [Flight._send_results] builds. *)
Definition passenger_line (p : Passenger) : string :=
  (passenger_name p ++ " got " ++ boardingGroup p ++ boardingPosition p ++ "!
")%string.

Definition success_message (self : Flight) (a : Account)
  (boarding_pass : list BoardingFlight) : string :=
  fold_left
    (fun msg flight =>
       fold_left (fun msg p => (msg ++ passenger_line p)%string) (passengers flight) msg)
    boarding_pass
    ("Successfully checked in to flight from '" ++ departure_airport self ++ "' to '"
     ++ destination_airport self ++ "' for " ++ first_name a ++ " " ++ last_name a ++ "!
")%string.

(** [Flight._send_results] *)
Definition _send_results (self : Flight) (boarding_pass : list BoardingFlight) : M unit :=
  w <- get ;;
  let success_message := success_message self (account w) boarding_pass in
  send_notification success_message (Some (NotificationLevel_INFO E)) ;;
  print success_message.

(** The message [Flight._check_in] prints first. *)
Definition checking_in_message (self : Flight) (a : Account) : string :=
  ("Checking in to flight from '" ++ departure_airport self ++ "' to '"
   ++ destination_airport self ++ "' for " ++ (first_name a ++ " " ++ last_name a) ++ "
")%string.

(** The message [Flight._check_in] reports a failed check-in with. *)
Definition checkin_error_message (self : Flight) (account_name err : string) : string :=
  ("Failed to check in to flight " ++ confirmation_number self ++ " for " ++ account_name
   ++ ". Reason: " ++ err ++ ".
Check in at this url: " ++ MANUAL_CHECKIN_URL ++ "
")%string.

(** [Flight._check_in] *)
Definition _check_in (self : Flight) : M unit :=
  w <- get ;;
  let account_name := (first_name (account w) ++ " " ++ last_name (account w))%string in
  print (checking_in_message self (account w)) ;;
  let headers := headers (account w) in
  let info := Names (first_name (account w)) (last_name (account w)) in
  let site := (CHECKIN_URL ++ confirmation_number self)%string in
  r <- try_except_CheckInError
         (response <- make_request "GET" site headers info ;;
          match response with
          | CheckInViewReservationPage href body =>
              let site := ("mobile-air-operations" ++ href)%string in
              reservation <- make_request "POST" site headers (Body body) ;;
              ret (Some reservation)
          | _ => raise (KeyError "checkInViewReservationPage")
          end)
         (fun err =>
            let error_message := checkin_error_message self account_name err in
            send_notification error_message (Some (NotificationLevel_ERROR E)) ;;
            print error_message ;;
            ret None) ;;
  match r with
  | None => ret tt
  | Some (CheckInConfirmationPage boarding_pass) => _send_results self boarding_pass
  | Some _ => raise (KeyError "checkInConfirmationPage")
  end.

(** [Flight._set_check_in], the body of the flight's process.  It runs in
    the started process, on that process's own copy of the world. *)
Definition _set_check_in (self : Flight) : M unit :=
  let checkin_time := departure_time self - mk_timedelta 1 1 0 in
  _wait_for_check_in self checkin_time ;;
  _check_in self.

(** *** [Account] *)

(** [flight.schedule_check_in()], as [_get_reservation_info] calls it.  The
    class [Flight] defines [__init__], [_get_flight_info], [_get_flight_time],
    [_get_airport_timezone], [_convert_to_utc], [_set_check_in],
    [_wait_for_check_in], [_check_in] and [_send_results], has no base class
    and no [__getattr__], and its constructor assigns no attribute of this
    name: the attribute lookup raises. *)
Definition schedule_check_in (self : Flight) : M unit :=
  raise (AttributeError "'Flight' object has no attribute 'schedule_check_in'").

(** The comparison in the loop of [Account._flight_is_scheduled]. *)
Definition same_flight (flight scheduled_flight : Flight) : bool :=
  (departure_time flight =? departure_time scheduled_flight)
  && String.eqb (departure_airport flight) (departure_airport scheduled_flight)
  && String.eqb (destination_airport flight) (destination_airport scheduled_flight).

(** [Account._flight_is_scheduled] *)
Definition _flight_is_scheduled (flight : Flight) : M bool :=
  w <- get ;;
  ret (existsb (same_flight flight) (flights (account w))).

(** [self.flights.append(flight)] *)
Definition flights_append (flight : Flight) : M unit :=
  w <- get ;;
  set_account (set_flights (account w) (flights (account w) ++ [flight])).

(** The message [Account._get_reservation_info] reports a failed retrieval
    with. *)
Definition reservation_error_message (a : Account) (confirmation_number err : string)
  : string :=
  ("Failed to retrieve reservation for " ++ first_name a ++ " " ++ last_name a
   ++ " with confirmation number " ++ confirmation_number ++ ". Reason: " ++ err ++ ".
Make sure the flight information is correct and try again.
")%string.

(** One turn of the loop over the bounds in [Account._get_reservation_info]. *)
Definition schedule_bound (confirmation_number : string) (flight_info : Bound) : M unit :=
  flight <- Flight__init__ confirmation_number flight_info ;;
  to_schedule <-
    (if negb (String.eqb (departureStatus flight_info) "DEPARTED")
     then (scheduled <- _flight_is_scheduled flight ;; ret (negb scheduled))
     else ret false) ;;
  if to_schedule
  then (schedule_check_in flight ;; flights_append flight)
  else ret tt.

(** [Account._get_reservation_info] *)
Definition _get_reservation_info (confirmation_number : string) : M unit :=
  w <- get ;;
  let info := Names (first_name (account w)) (last_name (account w)) in
  let site := (VIEW_RESERVATION_URL ++ confirmation_number)%string in
  r <- try_except_CheckInError
         (response <- make_request "GET" site (headers (account w)) info ;;
          ret (Some response))
         (fun err =>
            let error_message :=
              reservation_error_message (account w) confirmation_number err in
            send_notification error_message (Some (NotificationLevel_ERROR E)) ;;
            print error_message ;;
            ret None) ;;
  match r with
  | None => ret tt
  | Some (ViewReservationViewPage reservation_info) =>
      for_each reservation_info (schedule_bound confirmation_number)
  | Some _ => raise (KeyError "viewReservationViewPage")
  end.

(** The message [Account._send_new_flight_notifications] builds. *)
Definition flight_line (flight : Flight) : string :=
  ("Flight from " ++ departure_airport flight ++ " to " ++ destination_airport flight
   ++ " at " ++ str_datetime E (departure_time flight) ++ " UTC
")%string.

Definition flight_schedule_message (a : Account) (prev_flight_len : nat) : string :=
  fold_left (fun msg flight => (msg ++ flight_line flight)%string)
    (skipn prev_flight_len (flights a))
    ("Successfully scheduled the following flights to check in for "
     ++ first_name a ++ " " ++ last_name a ++ ":
")%string.

(** [Account._send_new_flight_notifications] *)
Definition _send_new_flight_notifications (prev_flight_len : nat) : M unit :=
  w <- get ;;
  if (List.length (flights (account w)) =? prev_flight_len)%nat then ret tt
  else
    send_notification (flight_schedule_message (account w) prev_flight_len)
      (Some (NotificationLevel_INFO E)).

(** The loop of [Account.get_flights]. *)
Definition process_reservations (reservations : list Reservation) : M unit :=
  for_each reservations
    (fun reservation =>
       let confirmation_number := confirmationNumber reservation in
       _get_reservation_info confirmation_number).

(** [Account.get_flights] *)
Definition get_flights : M unit :=
  w <- get ;;
  let prev_flight_len := List.length (flights (account w)) in
  reservations <- WebDriver_reservations E ;;
  process_reservations reservations ;;
  _send_new_flight_notifications prev_flight_len.

(** [Account.get_checkin_info] *)
Definition get_checkin_info (confirmation_number : string) : M unit :=
  w <- get ;;
  let prev_flight_len := List.length (flights (account w)) in
  refresh_headers ;;
  _get_reservation_info confirmation_number ;;
  _send_new_flight_notifications prev_flight_len.

End Program.

(** [Flight] defines no [__eq__]: [==] on flights is identity of objects. *)
Definition Flight_eq_dec (f g : Flight) : {f = g} + {f <> g}.
Proof.
  decide equality; auto using Nat.eq_dec, Z.eq_dec, string_dec.
Defined.

(** [l.remove(x)]: drops the first element equal to [x]; [None] stands for
    the [ValueError] raised when there is none. *)
Fixpoint list_remove (x : Flight) (l : list Flight) : option (list Flight) :=
  match l with
  | [] => None
  | y :: rest =>
      if Flight_eq_dec y x then Some rest
      else option_map (cons y) (list_remove x rest)
  end.

(** The body of the loop of [Account.remove_departed_flights]. *)
Definition remove_if_departed (current_time : datetime) (flight : Flight) : M unit :=
  if departure_time flight <? current_time then
    w <- get ;;
    match list_remove flight (flights (account w)) with
    | None => raise (ValueError "list.remove(x): x not in list")
    | Some rest => set_account (set_flights (account w) rest)
    end
  else ret tt.

(** [Account.remove_departed_flights]: the loop runs over the list as it was
    when the loop started ([self.flights[:]]). *)
Definition remove_departed_flights : M unit :=
  current_time <- utcnow ;;
  w <- get ;;
  let snapshot := flights (account w) in
  for_each snapshot (remove_if_departed current_time).

(** ** Vocabulary of the properties *)

(** Python's [datetime] begins with the year 1 and ends with the year 9999,
    and arithmetic that leaves these bounds raises [OverflowError].  An
    instant within them: *)
Definition representable (d : datetime) : Prop := 0 <= d <= 315537897599999999.

(** The world [w] with the account's list of flights replaced. *)
Definition with_flights (w : World) (fl : list Flight) : World :=
  {| account := set_flights (account w) fl; now := now w; objects := objects w;
     requests := requests w; events := events w |}.

(** The flights the sweep is to keep. *)
Definition not_departed (current_time : datetime) (f : Flight) : bool :=
  negb (departure_time f <? current_time).

(** The world [w] after [n] more requests and the events [evs]. *)
Definition did (w : World) (n : nat) (evs : list Event) : World :=
  {| account := account w; now := now w; objects := objects w;
     requests := (n + requests w)%nat; events := events w ++ evs |}.

(** Whether [send_notification] hands a message of this level to the
    transport under the configuration [cfg]. *)
Definition passes (cfg : Config) (level : option Z) : bool :=
  negb (List.length (notification_urls cfg) =? 0)%nat
  && negb (truthy level && below level (notification_level cfg)).

(** The events of one call of [send_notification]. *)
Definition notification_events (cfg : Config) (body : string) (level : option Z)
  : list Event :=
  Send_notification body level
  :: (if passes cfg level
      then [Apprise_notify (notification_urls cfg) "Auto Southwest Check-in Script" body]
      else []).

(** A computation that leaves the account as it found it, whether it returns
    or raises. *)
Definition keeps_account {A} (m : M A) : Prop :=
  forall w, account (final (m w)) = account w.

(** A computation that leaves the account's list of flights as it found it,
    whether it returns or raises. *)
Definition keeps_flights {A} (m : M A) : Prop :=
  forall w, flights (account (final (m w))) = flights (account w).

(** What [_flight_is_scheduled] compares flights by. *)
Definition flight_key (f : Flight) : datetime * string * string :=
  (departure_time f, departure_airport f, destination_airport f).

Section Vocabulary.

Variable E : Env.

(** What [_check_in] does after the requests [made], the last of which
    failed with [CheckInError reason]. *)
Definition after_failed_check_in (self : Flight) (reason : string)
    (made : list Event) (w : World) : World :=
  let a := account w in
  let message :=
    checkin_error_message self (first_name a ++ " " ++ last_name a)%string reason in
  did w (List.length made)
    ([Print (checking_in_message self a)] ++ made
     ++ notification_events (config a) message (Some (NotificationLevel_ERROR E))
     ++ [Print message]).

(** The lines of the announcement, one per flight. *)
Fixpoint flight_lines (fl : list Flight) : string :=
  match fl with
  | [] => ""
  | f :: rest => (flight_line E f ++ flight_lines rest)%string
  end.

End Vocabulary.

(** ** Vocabulary of the further properties *)

(** The headers the requests were made with, in order. *)
Fixpoint request_headers (evs : list Event) : list Headers :=
  match evs with
  | [] => []
  | Request _ _ h _ :: rest => h :: request_headers rest
  | _ :: rest => request_headers rest
  end.

(** The headers [refresh_headers] fetched, in the order of the fetches. *)
Fixpoint fetched (evs : list Event) : list Headers :=
  match evs with
  | [] => []
  | Refresh_headers h :: rest => h :: fetched rest
  | _ :: rest => fetched rest
  end.

(** A computation that makes no request, whether it returns or raises. *)
Definition makes_no_request {A} (m : M A) : Prop :=
  forall w,
    requested (events (final (m w))) = requested (events w)
    /\ request_headers (events (final (m w))) = request_headers (events w).

(** [CheckInError] is the one exception the two modules catch. *)
Definition is_CheckInError (e : Exception) : bool :=
  match e with
  | CheckInError _ => true
  | _ => false
  end.

(** The lines of [success_message], one per passenger. *)
Fixpoint passenger_lines (ps : list Passenger) : string :=
  match ps with
  | [] => ""
  | p :: rest => (passenger_line p ++ passenger_lines rest)%string
  end.

(** The first line of [success_message]. *)
Definition success_header (self : Flight) (a : Account) : string :=
  ("Successfully checked in to flight from '" ++ departure_airport self ++ "' to '"
   ++ destination_airport self ++ "' for " ++ first_name a ++ " " ++ last_name a ++ "!
")%string.

(** The first line of [flight_schedule_message]. *)
Definition schedule_header (a : Account) : string :=
  ("Successfully scheduled the following flights to check in for "
   ++ first_name a ++ " " ++ last_name a ++ ":
")%string.

(** The flight [Flight(account, cn, b)] builds as object [n], once the
    departure instant [t] is known. *)
Definition built (cn : string) (b : Bound) (t : datetime) (n : nat) : Flight :=
  {| oid := n; confirmation_number := cn; departure_time := t;
     departure_airport := airport_name (departureAirport b);
     destination_airport := airport_name (arrivalAirport b) |}.

Section FurtherVocabulary.

Variable E : Env.

(** The departure instant in UTC of a bound, when the airport code is in
    the table, its zone is known and the date parses. *)
Definition departure_of (b : Bound) : option datetime :=
  match airport_timezones E (airport_code (departureAirport b)) with
  | None => None
  | Some zone =>
      match pytz_timezone E zone with
      | None => None
      | Some tz =>
          match strptime E (departureDate b ++ " " ++ departureTime b)%string with
          | None => None
          | Some local => Some (local - utcoffset tz local)
          end
      end
  end.

(** The flights constructed for the bounds of a reservation, the first as
    object [n], up to the first bound whose departure instant cannot be
    computed. *)
Fixpoint spawned_for (cn : string) (bounds : list Bound) (n : nat) : list Flight :=
  match bounds with
  | [] => []
  | b :: rest =>
      match departure_of b with
      | Some t => built cn b t n :: spawned_for cn rest (S n)
      | None => []
      end
  end.

(** A bound for which the scheduler constructs a flight and does no more:
    it has departed, or its flight is among [fl]. *)
Definition passed_over (fl : list Flight) (b : Bound) : Prop :=
  exists t, departure_of b = Some t
            /\ (departureStatus b = "DEPARTED"
                \/ existsb (same_flight (built "" b t 0)) fl = true).

End FurtherVocabulary.

(** ** A concrete setting

    One account, two airports and a small server, used to run the program on
    explicit inputs. *)
Module Demo.

(** US Pacific time in 2021: UTC-8, and UTC-7 between 14 March 02:00 and
    7 November 02:00 local time. *)
Definition pacific : tzinfo :=
  {| utcoffset := fun d =>
       if (63751284000000000 <=? d) && (d <? 63771847200000000)
       then mk_timedelta 0 (-25200) 0
       else mk_timedelta 0 (-28800) 0 |}.

Definition eastern : tzinfo :=
  {| utcoffset := fun d =>
       if (63751284000000000 <=? d) && (d <? 63771847200000000)
       then mk_timedelta 0 (-14400) 0
       else mk_timedelta 0 (-18000) 0 |}.

(** 2021-12-06 05:30 and 2021-03-14 12:00 as naive datetimes. *)
Definition dec_6_0530 : datetime := 63774365400000000.
Definition mar_14_1200 : datetime := 63751320000000000.

Definition lax := {| airport_name := "Los Angeles"; airport_code := "LAX" |}.
Definition jfk := {| airport_name := "New York"; airport_code := "JFK" |}.

Definition waiting_bound : Bound :=
  {| departureStatus := "WAITING"; departureDate := "2021-12-06";
     departureTime := "05:30"; departureAirport := lax; arrivalAirport := jfk |}.

Definition departed_bound : Bound :=
  {| departureStatus := "DEPARTED"; departureDate := "2021-03-14";
     departureTime := "12:00"; departureAirport := jfk; arrivalAirport := lax |}.

Definition view (confirmation_number : string) : string :=
  (VIEW_RESERVATION_URL ++ confirmation_number)%string.

(** The server: the reservations ABC123 and XYZ789 hold the same flight,
    OLD456 holds a flight that has left, nothing else is known, and every
    check-in is refused. *)
Definition reply (n : nat) (method site : string) (h : Headers) (info : Payload)
  : Exception + Response :=
  if String.eqb site (view "ABC123") then inr (ViewReservationViewPage [waiting_bound])
  else if String.eqb site (view "XYZ789") then inr (ViewReservationViewPage [waiting_bound])
  else if String.eqb site (view "OLD456") then inr (ViewReservationViewPage [departed_bound])
  else inl (CheckInError "404 Not Found").

(** An environment whose header fetch takes [elapsed] microseconds. *)
Definition env (elapsed : timedelta) : Env :=
  {| airport_timezones := fun code =>
       if String.eqb code "LAX" then Some "America/Los_Angeles"
       else if String.eqb code "JFK" then Some "America/New_York"
       else None;
     pytz_timezone := fun zone =>
       if String.eqb zone "America/Los_Angeles" then Some pacific
       else if String.eqb zone "America/New_York" then Some eastern
       else None;
     strptime := fun s =>
       if String.eqb s "2021-12-06 05:30" then Some dec_6_0530
       else if String.eqb s "2021-03-14 12:00" then Some mar_14_1200
       else None;
     str_datetime := fun d =>
       if d =? 63774394200000000 then "2021-12-06 13:30:00"
       else if d =? 63774307799000000 then "2021-12-05 13:29:59"
       else "a datetime";
     make_request_reply := reply;
     WebDriver_headers := fun _ => inr [("X-API-Key", "fresh")];
     WebDriver_elapsed := fun _ => elapsed;
     WebDriver_reservations := ret [];
     NotificationLevel_INFO := 1;
     NotificationLevel_ERROR := 2 |}.

Definition john (fl : list Flight) : Account :=
  {| first_name := "John"; last_name := "Doe"; flights := fl;
     headers := [("X-API-Key", "stale")];
     config := {| notification_urls := ["mailto://john"]; notification_level := 2 |} |}.

(** An account with no notification URL. *)
Definition jane : Account :=
  {| first_name := "Jane"; last_name := "Roe"; flights := [];
     headers := [("X-API-Key", "stale")];
     config := {| notification_urls := []; notification_level := 1 |} |}.

(** A process that has done nothing yet, at clock time [t]. *)
Definition start (a : Account) (t : datetime) : World :=
  {| account := a; now := t; objects := 0; requests := 0; events := [] |}.

(** The flight of [waiting_bound], as object number [n] of reservation
    [confirmation_number]: it leaves at 13:30 UTC. *)
Definition lax_jfk (n : nat) (confirmation_number : string) : Flight :=
  {| oid := n; confirmation_number := confirmation_number;
     departure_time := 63774394200000000;
     departure_airport := "Los Angeles"; destination_airport := "New York" |}.

(** The same environment with another server. *)
Definition with_server (E : Env)
    (server : nat -> string -> string -> Headers -> Payload -> Exception + Response) : Env :=
  {| airport_timezones := airport_timezones E;
     pytz_timezone := pytz_timezone E;
     strptime := strptime E;
     str_datetime := str_datetime E;
     make_request_reply := server;
     WebDriver_headers := WebDriver_headers E;
     WebDriver_elapsed := WebDriver_elapsed E;
     WebDriver_reservations := WebDriver_reservations E;
     NotificationLevel_INFO := NotificationLevel_INFO E;
     NotificationLevel_ERROR := NotificationLevel_ERROR E |}.

(** The same environment with another table of airport time zones. *)
Definition with_timezones (E : Env) (table : string -> option string) : Env :=
  {| airport_timezones := table;
     pytz_timezone := pytz_timezone E;
     strptime := strptime E;
     str_datetime := str_datetime E;
     make_request_reply := make_request_reply E;
     WebDriver_headers := WebDriver_headers E;
     WebDriver_elapsed := WebDriver_elapsed E;
     WebDriver_reservations := WebDriver_reservations E;
     NotificationLevel_INFO := NotificationLevel_INFO E;
     NotificationLevel_ERROR := NotificationLevel_ERROR E |}.

(** A bound whose time of departure is no time. *)
Definition garbled_bound : Bound :=
  {| departureStatus := "WAITING"; departureDate := "2021-12-06";
     departureTime := "25:61"; departureAirport := lax; arrivalAirport := jfk |}.

Definition boarding_pass : list BoardingFlight :=
  [ {| passengers := [ {| passenger_name := "John Doe"; boardingGroup := "A";
                          boardingPosition := "16" |};
                       {| passenger_name := "Mary Doe"; boardingGroup := "B";
                          boardingPosition := "03" |} ] |} ].

(** A server that lets every check-in through. *)
Definition welcoming (n : nat) (method site : string) (h : Headers) (info : Payload)
  : Exception + Response :=
  if String.eqb method "POST" then inr (CheckInConfirmationPage boarding_pass)
  else inr (CheckInViewReservationPage "/v1/mobile-air-operations/page/check-in" "token").

(** A server that is down. *)
Definition down (n : nat) (method site : string) (h : Headers) (info : Payload)
  : Exception + Response :=
  inl (CheckInError "503 Service Unavailable").

(** A server that answers every request with a boarding pass. *)
Definition confused (n : nat) (method site : string) (h : Headers) (info : Payload)
  : Exception + Response :=
  inr (CheckInConfirmationPage boarding_pass).

(** A bound that leaves from an airport the time-zone table does not have. *)
Definition uncharted_bound : Bound :=
  {| departureStatus := "WAITING"; departureDate := "2021-12-06";
     departureTime := "05:30";
     departureAirport := {| airport_name := "Nowhere"; airport_code := "???" |};
     arrivalAirport := jfk |}.

(** A server whose one reservation holds [uncharted_bound], then
    [waiting_bound]. *)
Definition uncharted (n : nat) (method site : string) (h : Headers) (info : Payload)
  : Exception + Response :=
  inr (ViewReservationViewPage [uncharted_bound; waiting_bound]).

(** A server whose one reservation holds a bound that has departed and the
    bound of the flight John may already track. *)
Definition familiar (n : nat) (method site : string) (h : Headers) (info : Payload)
  : Exception + Response :=
  inr (ViewReservationViewPage [departed_bound; waiting_bound]).

End Demo.

(** ** Properties *)

(** *** Projections of a trace that grows *)

Lemma notifications_app (evs evs' : list Event) :
  notifications (evs ++ evs') = notifications evs ++ notifications evs'.
Proof.
  induction evs as [|e evs IH]; [reflexivity|].
  destruct e; cbn [app notifications]; rewrite IH; reflexivity.
Qed.

Lemma delivered_app (evs evs' : list Event) :
  delivered (evs ++ evs') = delivered evs ++ delivered evs'.
Proof.
  induction evs as [|e evs IH]; [reflexivity|].
  destruct e; cbn [app delivered]; rewrite IH; reflexivity.
Qed.

Lemma requested_app (evs evs' : list Event) :
  requested (evs ++ evs') = requested evs ++ requested evs'.
Proof.
  induction evs as [|e evs IH]; [reflexivity|].
  destruct e; cbn [app requested]; rewrite IH; reflexivity.
Qed.

Lemma started_app (evs evs' : list Event) :
  started (evs ++ evs') = started evs ++ started evs'.
Proof.
  induction evs as [|e evs IH]; [reflexivity|].
  destruct e; cbn [app started]; rewrite IH; reflexivity.
Qed.

(** *** The constructor *)

Section Constructor.

Variable E : Env.

(** What [Flight(account, confirmation_number, flight)] does when the
    departure airport is in the time-zone table and the date parses. *)
Lemma Flight__init__spec (cn : string) (b : Bound) (zone : string) (tz : tzinfo)
    (local : datetime) (w : World) :
  airport_timezones E (airport_code (departureAirport b)) = Some zone ->
  pytz_timezone E zone = Some tz ->
  strptime E (departureDate b ++ " " ++ departureTime b)%string = Some local ->
  let self := {| oid := objects w; confirmation_number := cn;
                 departure_time := local - utcoffset tz local;
                 departure_airport := airport_name (departureAirport b);
                 destination_airport := airport_name (arrivalAirport b) |} in
  Flight__init__ E cn b w =
    Return self {| account := account w; now := now w; objects := S (objects w);
                   requests := requests w;
                   events := events w ++ [Process_start self] |}.
Proof.
  intros Hzone Htz Hdate.
  unfold Flight__init__, _get_flight_time, _get_airport_timezone, _convert_to_utc,
    bind, new_object; cbv beta zeta.
  rewrite Hzone, Htz; cbv beta iota.
  rewrite Hdate. reflexivity.
Qed.

(** An airport code that is not in the time-zone table: the constructor
    raises before it starts any process. *)
Lemma Flight__init__unknown_airport (cn : string) (b : Bound) (w : World) :
  airport_timezones E (airport_code (departureAirport b)) = None ->
  exists w',
    Flight__init__ E cn b w = Raise (KeyError (airport_code (departureAirport b))) w' /\
    events w' = events w.
Proof.
  intros Hzone.
  unfold Flight__init__, _get_flight_time, _get_airport_timezone, bind, new_object,
    raise; cbv beta zeta.
  rewrite Hzone. eexists. split; reflexivity.
Qed.

End Constructor.

(** *** The wait of the timer *)

Section Wait.

Variable E : Env.

(** A check-in instant that is not in the future: no wait at all. *)
Lemma wait_skipped_when_due (self : Flight) (checkin_time : datetime) (w : World) :
  checkin_time <= now w ->
  _wait_for_check_in E self checkin_time w = Return tt w.
Proof.
  intros H. unfold _wait_for_check_in, bind, utcnow.
  apply Z.leb_le in H. rewrite H. reflexivity.
Qed.

(** Then the check-in follows at once. *)
Lemma check_in_at_once_when_due (self : Flight) (w : World) :
  departure_time self - mk_timedelta 1 1 0 <= now w ->
  _set_check_in E self w = _check_in E self w.
Proof.
  intros H. unfold _set_check_in, bind at 1.
  rewrite (wait_skipped_when_due self _ w H). reflexivity.
Qed.

(** At most ten minutes ahead: one sleep, up to the check-in instant, and no
    refresh of the headers. *)
Lemma wait_within_ten_minutes (self : Flight) (checkin_time : datetime) (w : World) :
  now w < checkin_time ->
  checkin_time - now w <= mk_timedelta 0 0 10 ->
  exists w',
    _wait_for_check_in E self checkin_time w = Return tt w' /\
    now w' = checkin_time /\
    account w' = account w /\
    events w' = events w ++ [Print (scheduling_message E self (account w) checkin_time);
                             Sleep (checkin_time - now w)].
Proof.
  intros Hlt Hnear.
  unfold _wait_for_check_in, bind, utcnow, get, print, emit, time_sleep, ret; cbv beta iota.
  assert (H1 : (checkin_time <=? now w) = false) by (apply Z.leb_gt; lia).
  assert (H2 : (0 <? checkin_time - now w - mk_timedelta 0 0 10) = false)
    by (apply Z.ltb_ge; lia).
  assert (H3 : (checkin_time - now w <? 0) = false) by (apply Z.ltb_ge; lia).
  rewrite H1; cbn [account now objects requests events].
  rewrite H2; cbn [account now objects requests events].
  rewrite H3. unfold bind, emit, advance; cbn [account now objects requests events].
  eexists; split; [reflexivity|].
  cbn [account now objects requests events].
  rewrite <- app_assoc. repeat split. lia.
Qed.

(** More than ten minutes ahead, as far as the header fetch: the message,
    the first sleep, and the time the fetch takes. *)
Lemma wait_up_to_the_fetch (self : Flight) (checkin_time : datetime) (w : World) :
  let wake := checkin_time - mk_timedelta 0 0 10 in
  let fetched :=
    {| account := account w; now := wake + WebDriver_elapsed E wake;
       objects := objects w; requests := requests w;
       events := events w ++ [Print (scheduling_message E self (account w) checkin_time);
                              Sleep (wake - now w)] |} in
  now w < wake ->
  _wait_for_check_in E self checkin_time w
  = match WebDriver_headers E wake with
    | inl e => Raise e fetched
    | inr fresh =>
        (emit (Refresh_headers fresh) ;;
         time_sleep (checkin_time - (wake + WebDriver_elapsed E wake)))%py
          {| account := set_headers (account w) fresh; now := now fetched;
             objects := objects w; requests := requests w; events := events fetched |}
    end.
Proof.
  cbv zeta. intros Hfar.
  unfold _wait_for_check_in, bind at 1, utcnow.
  replace (checkin_time <=? now w) with false
    by (symmetry; apply Z.leb_gt; unfold mk_timedelta in *; lia).
  unfold bind at 1, get. unfold bind at 1, print, emit.
  cbn [account now objects requests events].
  replace (0 <? checkin_time - now w - mk_timedelta 0 0 10) with true
    by (symmetry; apply Z.ltb_lt; lia).
  unfold bind at 1, bind at 1, time_sleep at 1.
  replace (checkin_time - now w - mk_timedelta 0 0 10 <? 0) with false
    by (symmetry; apply Z.ltb_ge; lia).
  unfold bind at 1, emit, advance.
  cbn [account now objects requests events].
  unfold refresh_headers, bind at 1, get. unfold bind at 1, advance.
  cbn [account now objects requests events].
  replace (now w + (checkin_time - now w - mk_timedelta 0 0 10))
    with (checkin_time - mk_timedelta 0 0 10) by lia.
  replace (checkin_time - now w - mk_timedelta 0 0 10)
    with (checkin_time - mk_timedelta 0 0 10 - now w) by lia.
  rewrite <- !app_assoc. cbn [app].
  destruct (WebDriver_headers E (checkin_time - mk_timedelta 0 0 10)) as [e | fresh].
  - reflexivity.
  - unfold bind, get, set_account, emit, utcnow.
    cbn [account now objects requests events]. reflexivity.
Qed.

(** More than ten minutes ahead, a header fetch that succeeds and takes no
    longer than ten minutes: a sleep up to ten minutes before the check-in
    instant, the refresh of the headers, and a second sleep up to the
    check-in instant. *)
Lemma wait_beyond_ten_minutes (self : Flight) (checkin_time : datetime)
    (fresh : Headers) (w : World) :
  let wake := checkin_time - mk_timedelta 0 0 10 in
  now w < wake ->
  WebDriver_headers E wake = inr fresh ->
  0 <= WebDriver_elapsed E wake <= mk_timedelta 0 0 10 ->
  exists w',
    _wait_for_check_in E self checkin_time w = Return tt w' /\
    now w' = checkin_time /\
    account w' = set_headers (account w) fresh /\
    events w' = events w ++ [Print (scheduling_message E self (account w) checkin_time);
                             Sleep (wake - now w);
                             Refresh_headers fresh;
                             Sleep (mk_timedelta 0 0 10 - WebDriver_elapsed E wake)].
Proof.
  intros wake Hlt Hfresh Hfetch. subst wake.
  rewrite (wait_up_to_the_fetch self checkin_time w Hlt), Hfresh.
  unfold bind, emit, time_sleep. cbn [account now objects requests events].
  replace (checkin_time - (checkin_time - mk_timedelta 0 0 10
             + WebDriver_elapsed E (checkin_time - mk_timedelta 0 0 10)) <? 0)
    with false by (symmetry; apply Z.ltb_ge; lia).
  unfold bind, emit, advance. cbn [account now objects requests events].
  eexists; split; [reflexivity|].
  cbn [account now objects requests events].
  split; [lia|]. split; [reflexivity|].
  rewrite <- !app_assoc. cbn [app].
  replace (checkin_time - (checkin_time - mk_timedelta 0 0 10
             + WebDriver_elapsed E (checkin_time - mk_timedelta 0 0 10)))
    with (mk_timedelta 0 0 10 - WebDriver_elapsed E (checkin_time - mk_timedelta 0 0 10))
    by lia.
  reflexivity.
Qed.

(** More than ten minutes ahead and a header fetch that succeeds but takes
    longer than ten minutes: the second sleep is asked for a negative
    length, which [time.sleep] refuses; the process ends there and
    [_check_in] never runs. *)
Lemma wait_fails_after_slow_refresh (self : Flight) (fresh : Headers) (w : World) :
  let checkin_time := departure_time self - mk_timedelta 1 1 0 in
  let wake := checkin_time - mk_timedelta 0 0 10 in
  now w < wake ->
  WebDriver_headers E wake = inr fresh ->
  mk_timedelta 0 0 10 < WebDriver_elapsed E wake ->
  exists w',
    _set_check_in E self w = Raise (ValueError "sleep length must be non-negative") w' /\
    now w' = wake + WebDriver_elapsed E wake /\
    requested (events w') = requested (events w).
Proof.
  intros checkin_time wake Hlt Hfresh Hslow. subst wake.
  unfold _set_check_in, bind at 1. fold checkin_time.
  rewrite (wait_up_to_the_fetch self checkin_time w Hlt), Hfresh.
  unfold bind, emit, time_sleep, raise. cbn [account now objects requests events].
  replace (checkin_time - (checkin_time - mk_timedelta 0 0 10
             + WebDriver_elapsed E (checkin_time - mk_timedelta 0 0 10)) <? 0)
    with true by (symmetry; apply Z.ltb_lt; lia).
  eexists; split; [reflexivity|].
  cbn [account now objects requests events].
  split; [reflexivity|].
  rewrite <- !app_assoc, requested_app. cbn [app requested].
  apply app_nil_r.
Qed.

(** More than ten minutes ahead and a header fetch that fails: the exception
    of the fetch ends the process, the headers are as they were, and
    [_check_in] never runs. *)
Lemma wait_fails_with_the_fetch (self : Flight) (e : Exception) (w : World) :
  let checkin_time := departure_time self - mk_timedelta 1 1 0 in
  let wake := checkin_time - mk_timedelta 0 0 10 in
  now w < wake ->
  WebDriver_headers E wake = inl e ->
  exists w',
    _set_check_in E self w = Raise e w' /\
    account w' = account w /\
    requested (events w') = requested (events w).
Proof.
  intros checkin_time wake Hlt Hfailed. subst wake.
  unfold _set_check_in, bind at 1. fold checkin_time.
  rewrite (wait_up_to_the_fetch self checkin_time w Hlt), Hfailed.
  eexists; split; [reflexivity|].
  cbn [account now objects requests events].
  split; [reflexivity|].
  rewrite requested_app. cbn [requested]. apply app_nil_r.
Qed.

End Wait.

(** (C1) The check-in instant the timer waits for is the departure instant
    in UTC less 24 hours and one second, whatever the offset of the
    departure airport's time zone.  The constructor takes the local
    departure time to UTC, and [_set_check_in] subtracts from that UTC
    instant and hands the result to the wait.  This is for a departure
    whose airport is in the time-zone table and whose date parses, and for
    instants that Python's [datetime] can hold. *)
Theorem checkin_instant_is_utc_departure_less_a_day_and_a_second
    (E : Env) (cn : string) (b : Bound) (zone : string) (tz : tzinfo)
    (local : datetime) (w : World) :
  airport_timezones E (airport_code (departureAirport b)) = Some zone ->
  pytz_timezone E zone = Some tz ->
  strptime E (departureDate b ++ " " ++ departureTime b)%string = Some local ->
  let departure := local - utcoffset tz local in
  let checkin := departure - (24 * 3600 + 1) * 1000000 in
  representable departure ->
  representable checkin ->
  exists self w',
    Flight__init__ E cn b w = Return self w' /\
    departure_time self = departure /\
    _set_check_in E self = (_wait_for_check_in E self checkin ;; _check_in E self)%py.
Proof.
  intros Hzone Htz Hdate departure checkin _ _.
  eexists; eexists. split.
  { apply (Flight__init__spec E cn b zone tz local w Hzone Htz Hdate). }
  split; reflexivity.
Qed.

(** The theorem above at [Demo.waiting_bound]: 05:30 in Los Angeles on 6
    December is 13:30 UTC, and the timer waits for 5 December, 13:29:59
    UTC. *)
Lemma checkin_instant_witness :
  exists self w',
    Flight__init__ (Demo.env 0) "ABC123" Demo.waiting_bound (Demo.start (Demo.john []) 0)
      = Return self w' /\
    departure_time self = 63774394200000000 /\
    _set_check_in (Demo.env 0) self
    = (_wait_for_check_in (Demo.env 0) self 63774307799000000 ;;
       _check_in (Demo.env 0) self)%py.
Proof.
  apply (checkin_instant_is_utc_departure_less_a_day_and_a_second (Demo.env 0)
           "ABC123" Demo.waiting_bound "America/Los_Angeles" Demo.pacific
           Demo.dec_6_0530 (Demo.start (Demo.john []) 0) eq_refl eq_refl eq_refl);
    split; discriminate.
Defined.

(** Subtracting the day and the second from the local time and converting
    afterwards would give another instant when a change of offset falls in
    between: the day after the switch to daylight saving time, by an hour. *)
Lemma subtraction_before_conversion_differs :
  localize_to_utc Demo.pacific (Demo.mar_14_1200 - mk_timedelta 1 1 0)
  = localize_to_utc Demo.pacific Demo.mar_14_1200 - mk_timedelta 1 1 0
    + mk_timedelta 0 3600 0.
Proof. reflexivity. Qed.

(** (C4) The second sleep is not skipped when the time left is negative.
    The timer starts 10 minutes and 1 second before the check-in instant
    and the header fetch takes 10 minutes and 1 second: the timer sleeps 1
    second, refreshes the headers, finds itself 1 second past the check-in
    instant and asks [time.sleep] for -1 second.  The [ValueError] ends the
    process: no check-in request is made. *)
Theorem late_second_sleep_is_refused_not_skipped :
  let E := Demo.env (mk_timedelta 0 1 10) in
  let self := Demo.lax_jfk 0 "ABC123" in
  let checkin_time := departure_time self - mk_timedelta 1 1 0 in
  let w := Demo.start (Demo.john [self]) (checkin_time - mk_timedelta 0 1 10) in
  exists w',
    _set_check_in E self w = Raise (ValueError "sleep length must be non-negative") w' /\
    now w' = checkin_time + mk_timedelta 0 1 0 /\
    events w' =
      [Print "Scheduling checkin to flight from 'Los Angeles' to 'New York' for John Doe at 2021-12-05 13:29:59 UTC
";
       Sleep (mk_timedelta 0 1 0);
       Refresh_headers [("X-API-Key", "fresh")]] /\
    requested (events w') = [].
Proof.
  cbv zeta. eexists. split; [vm_compute; reflexivity|].
  repeat split.
Qed.

(** *** The sweep of departed flights *)

Lemma with_flights_same (w : World) : with_flights w (flights (account w)) = w.
Proof. destruct w as [[? ? ? ? ?] ? ? ? ?]. reflexivity. Qed.

Lemma list_remove_first (x : Flight) (pre rest : list Flight) :
  ~ In x pre -> list_remove x (pre ++ x :: rest) = Some (pre ++ rest).
Proof.
  induction pre as [|y pre IH]; intros Hnotin; cbn [app list_remove].
  - destruct (Flight_eq_dec x x); [reflexivity|congruence].
  - destruct (Flight_eq_dec y x) as [->|_].
    + exfalso. apply Hnotin. left. reflexivity.
    + rewrite IH; [reflexivity|]. intros Hin. apply Hnotin. right. exact Hin.
Qed.

(** The loop, after any number of turns: the flights seen so far and kept
    ([pre]) are followed in the account's list by the flights still to be
    seen ([suffix]). *)
Lemma sweep_loop (t : datetime) (suffix : list Flight) :
  forall (pre : list Flight) (w : World),
    (forall f, In f pre -> not_departed t f = true) ->
    flights (account w) = pre ++ suffix ->
    for_each suffix (remove_if_departed t) w
    = Return tt (with_flights w (pre ++ filter (not_departed t) suffix)).
Proof.
  induction suffix as [|x suffix IH]; intros pre w Hpre Hfl.
  - cbn [for_each filter]. rewrite <- Hfl, with_flights_same. reflexivity.
  - cbn [for_each filter]. unfold bind at 1, remove_if_departed at 1.
    assert (Hkeep : not_departed t x = negb (departure_time x <? t)) by reflexivity.
    rewrite Hkeep.
    destruct (departure_time x <? t) eqn:Hx; cbn [negb].
    + unfold bind, get. rewrite Hfl, list_remove_first.
      * unfold set_account.
        change {| account := set_flights (account w) (pre ++ suffix); now := now w;
                  objects := objects w; requests := requests w; events := events w |}
          with (with_flights w (pre ++ suffix)).
        rewrite (IH pre (with_flights w (pre ++ suffix)) Hpre eq_refl). reflexivity.
      * intros Hin. apply Hpre in Hin. rewrite Hkeep in Hin. discriminate.
    + unfold ret.
      rewrite (IH (pre ++ [x]) w).
      * rewrite <- app_assoc. reflexivity.
      * intros f Hin. apply in_app_or in Hin. destruct Hin as [Hin|[<-|[]]].
        -- apply Hpre, Hin.
        -- exact Hkeep.
      * rewrite Hfl, <- app_assoc. reflexivity.
Qed.

(** (C5) The sweep leaves in the account exactly the flights whose departure
    instant is not strictly before the current time, in their order, whatever
    the list and the time; it never fails, and touches nothing else.  Every
    flight of the list as it was at the start is examined: a removal makes
    the loop skip nothing. *)
Theorem remove_departed_flights_keeps_exactly_the_not_departed (w : World) :
  remove_departed_flights w
  = Return tt (with_flights w (filter (not_departed (now w)) (flights (account w)))).
Proof.
  unfold remove_departed_flights, bind, utcnow, get.
  apply (sweep_loop (now w) (flights (account w)) [] w).
  - intros f [].
  - reflexivity.
Qed.

(** Flights at [T - 1] and [T + 1], swept at [T]: the first goes, the second
    stays. *)
Corollary sweep_around_now (w : World) (T : datetime) (f1 f2 : Flight) :
  now w = T ->
  departure_time f1 = T - 1 ->
  departure_time f2 = T + 1 ->
  flights (account w) = [f1; f2] ->
  flights (account (final (remove_departed_flights w))) = [f2].
Proof.
  intros Hnow H1 H2 Hfl.
  unfold remove_departed_flights, bind, utcnow, get.
  rewrite (sweep_loop (now w) (flights (account w)) [] w (fun f (H : In f []) =>
             match H with end) eq_refl).
  cbn [app final with_flights account set_flights flights].
  rewrite Hfl, Hnow. cbn [filter]. unfold not_departed. rewrite H1, H2.
  replace (T - 1 <? T) with true by (symmetry; apply Z.ltb_lt; lia).
  replace (T + 1 <? T) with false by (symmetry; apply Z.ltb_ge; lia).
  reflexivity.
Qed.

(** *** Notifications *)

Lemma did_did (w : World) (n m : nat) (evs evs' : list Event) :
  did (did w n evs) m evs' = did w (m + n) (evs ++ evs').
Proof.
  unfold did; cbn [account now objects requests events].
  rewrite app_assoc, Nat.add_assoc. reflexivity.
Qed.

(** One call of [send_notification] is one notification, whatever becomes
    of it. *)
Lemma notifications_of_notification_events (cfg : Config) (body : string)
    (level : option Z) :
  notifications (notification_events cfg body level) = [(body, level)].
Proof. unfold notification_events. destruct (passes cfg level); reflexivity. Qed.

Lemma requested_of_notification_events (cfg : Config) (body : string)
    (level : option Z) :
  requested (notification_events cfg body level) = [].
Proof. unfold notification_events. destruct (passes cfg level); reflexivity. Qed.

Lemma delivered_of_notification_events (cfg : Config) (body : string)
    (level : option Z) :
  delivered (notification_events cfg body level)
  = if passes cfg level then [body] else [].
Proof. unfold notification_events. destruct (passes cfg level); reflexivity. Qed.

(** [send_notification] returns, and changes nothing but the events. *)
Lemma send_notification_spec (body : string) (level : option Z) (w : World) :
  send_notification body level w
  = Return tt (did w 0 (notification_events (config (account w)) body level)).
Proof.
  unfold send_notification, notification_events, passes, bind, emit, get, ret;
    cbn [account now objects requests events].
  destruct (List.length (notification_urls (config (account w))) =? 0)%nat;
    cbn [negb andb].
  - reflexivity.
  - destruct (truthy level && below level (notification_level (config (account w))));
      cbn [negb]; unfold did; cbn [account now objects requests events];
      rewrite <- ?app_assoc; reflexivity.
Qed.

Lemma no_urls (cfg : Config) :
  notification_urls cfg = [] <-> (List.length (notification_urls cfg) =? 0)%nat = true.
Proof.
  destruct (notification_urls cfg); cbn; split; congruence.
Qed.

(** A level that is set, below the minimum, and yet not held back: 0, which
    [if level and ...] takes for an absent level. *)
Lemma level_zero_is_below_the_minimum_and_delivered :
  ~ (forall (w : World) (body : string) (l : Z),
        notification_urls (config (account w)) <> [] ->
        l < notification_level (config (account w)) ->
        delivered (events (final (send_notification body (Some l) w)))
        = delivered (events w)).
Proof.
  intros H.
  specialize (H (Demo.start (Demo.john []) 0) "test" 0).
  cbv in H.
  assert (Habsurd : ["test"] = @nil string); [|discriminate Habsurd].
  apply H; [discriminate|reflexivity].
Qed.

(** [send_notification], case by case.  With no notification URL
    configured, a call does nothing besides being called.  With URLs
    configured, a message whose level is set, is not 0 and is below the
    configured minimum is held back in the same way (so level 1 under
    minimum 2 is), and a message with no level is handed to the transport
    whatever the minimum, with the fixed title; so is a message of level
    0. *)
Theorem send_notification_filters_by_level (w : World) (body : string)
    (level : option Z) :
  let cfg := config (account w) in
  let w' := final (send_notification body level w) in
  let handed_over :=
    Apprise_notify (notification_urls cfg) "Auto Southwest Check-in Script" body in
  (notification_urls cfg = [] -> w' = did w 0 [Send_notification body level])
  /\ (notification_urls cfg <> [] ->
      forall l, level = Some l -> l <> 0 -> l < notification_level cfg ->
                w' = did w 0 [Send_notification body level])
  /\ (notification_urls cfg <> [] ->
      level = None \/ level = Some 0 ->
      w' = did w 0 [Send_notification body level; handed_over]).
Proof.
  cbv zeta. rewrite send_notification_spec. cbn [final].
  unfold notification_events, passes.
  repeat split.
  - intros Hnone. apply no_urls in Hnone. rewrite Hnone. reflexivity.
  - intros Hsome l -> Hnz Hlt.
    assert (Hb : (l <? notification_level (config (account w))) = true)
      by (apply Z.ltb_lt; exact Hlt).
    assert (Ht : (l =? 0) = false) by (apply Z.eqb_neq; exact Hnz).
    cbn [truthy below]. rewrite Hb, Ht. cbn [negb andb].
    rewrite andb_false_r. reflexivity.
  - intros Hsome Hlevel.
    assert (Hu : (List.length (notification_urls (config (account w))) =? 0)%nat = false).
    { destruct (List.length (notification_urls (config (account w))) =? 0)%nat eqn:Hlen;
        [|reflexivity].
      apply no_urls in Hlen. contradiction. }
    rewrite Hu. destruct Hlevel as [-> | ->]; reflexivity.
Qed.

(** The theorem above for Jane, who has no URL, and for John's configuration
    (one URL, minimum 2): level 1 is held back, no level and level 0 are
    delivered. *)
Lemma send_notification_filters_by_level_witness :
  let w := Demo.start (Demo.john []) 0 in
  let quiet := Demo.start Demo.jane 0 in
  delivered (events (final (send_notification "test" None quiet))) = []
  /\ delivered (events (final (send_notification "test" (Some 1) w))) = []
  /\ delivered (events (final (send_notification "test" None w))) = ["test"]
  /\ delivered (events (final (send_notification "test" (Some 0) w))) = ["test"].
Proof.
  cbv zeta.
  split; [|split; [|split]].
  - rewrite (proj1 (send_notification_filters_by_level
                      (Demo.start Demo.jane 0) "test" None) eq_refl).
    reflexivity.
  - rewrite (proj1 (proj2 (send_notification_filters_by_level
                             (Demo.start (Demo.john []) 0) "test" (Some 1)))
               ltac:(discriminate) 1 eq_refl ltac:(discriminate) eq_refl).
    reflexivity.
  - rewrite (proj2 (proj2 (send_notification_filters_by_level
                             (Demo.start (Demo.john []) 0) "test" None))
               ltac:(discriminate) (or_introl eq_refl)).
    reflexivity.
  - rewrite (proj2 (proj2 (send_notification_filters_by_level
                             (Demo.start (Demo.john []) 0) "test" (Some 0)))
               ltac:(discriminate) (or_intror eq_refl)).
    reflexivity.
Defined.

(** (C7) A message whose level is set and below the configured minimum is
    not always held back.  The test is [if level and level < minimum], and
    Python takes the level 0 for false, as it takes [None]: with a URL
    configured and a minimum above 0, a message of level 0 is below the
    minimum and is handed to the transport all the same, once, under the
    fixed title. *)
Theorem level_zero_is_delivered_below_the_minimum (w : World) (body : string) :
  let cfg := config (account w) in
  let w' := final (send_notification body (Some 0) w) in
  notification_urls cfg <> [] ->
  0 < notification_level cfg ->
  events w' = events w ++ [Send_notification body (Some 0);
                           Apprise_notify (notification_urls cfg)
                             "Auto Southwest Check-in Script" body]
  /\ delivered (events w') = delivered (events w) ++ [body].
Proof.
  cbv zeta. intros Hurls _.
  rewrite send_notification_spec. cbn [final did events].
  unfold notification_events, passes.
  destruct (List.length (notification_urls (config (account w))) =? 0)%nat eqn:Hlen.
  { apply no_urls in Hlen. contradiction. }
  cbn [truthy negb andb Z.eqb]. split; [reflexivity|].
  rewrite delivered_app. reflexivity.
Qed.

(** The theorem above on John's configuration, one URL and the minimum 2:
    level 0 is delivered, where level 1 is held back. *)
Lemma level_zero_witness :
  let w := Demo.start (Demo.john []) 0 in
  delivered (events (final (send_notification "test" (Some 0) w))) = ["test"]
  /\ delivered (events (final (send_notification "test" (Some 1) w))) = [].
Proof.
  cbv zeta. split; [|reflexivity].
  apply (level_zero_is_delivered_below_the_minimum (Demo.start (Demo.john []) 0) "test").
  - discriminate.
  - reflexivity.
Defined.

(** *** Failures of requests *)

Lemma mentions_intro (before s after : string) :
  mentions s (before ++ s ++ after)%string.
Proof. exists before, after. reflexivity. Qed.

Lemma append_assoc (a b c : string) : ((a ++ b) ++ c = a ++ b ++ c)%string.
Proof. induction a as [|ch a IH]; cbn; [reflexivity | rewrite IH; reflexivity]. Qed.

Section Failures.

Variable E : Env.

(** [make_request], when the collaborator answers. *)
Lemma make_request_answers (method site : string) (h : Headers) (info : Payload)
    (r : Response) (w : World) :
  make_request_reply E (requests w) method site h info = inr r ->
  make_request E method site h info w
  = Return r (did w 1 [Request method site h info]).
Proof.
  intros Hreply.
  unfold make_request, bind, count_request, emit; cbn [account now objects requests events].
  rewrite Hreply. reflexivity.
Qed.

(** [make_request], when the collaborator raises. *)
Lemma make_request_raises (method site : string) (h : Headers) (info : Payload)
    (e : Exception) (w : World) :
  make_request_reply E (requests w) method site h info = inl e ->
  make_request E method site h info w
  = Raise e (did w 1 [Request method site h info]).
Proof.
  intros Hreply.
  unfold make_request, bind, count_request, emit; cbn [account now objects requests events].
  rewrite Hreply. reflexivity.
Qed.

(** (C6) When the request for the details of one reservation fails with a
    [CheckInError], [_get_reservation_info] makes that one request, calls
    [send_notification] once, with the level ERROR and a message that holds
    the traveler's first and last name and the confirmation number, prints
    the message and returns; the account, and with it the list of flights,
    is as before; and the loop of [get_flights] goes on with the rest of
    the batch. *)
Theorem failed_retrieval_is_reported_and_isolated (confirmation_number reason : string)
    (rest : list Reservation) (w : World) :
  let a := account w in
  let site := (VIEW_RESERVATION_URL ++ confirmation_number)%string in
  let info := Names (first_name a) (last_name a) in
  let message := reservation_error_message a confirmation_number reason in
  make_request_reply E (requests w) "GET" site (headers a) info
    = inl (CheckInError reason) ->
  exists w',
    _get_reservation_info E confirmation_number w = Return tt w' /\
    events w' = events w ++ [Request "GET" site (headers a) info]
                ++ notification_events (config a) message
                     (Some (NotificationLevel_ERROR E))
                ++ [Print message] /\
    notifications (events w')
      = notifications (events w) ++ [(message, Some (NotificationLevel_ERROR E))] /\
    mentions (first_name a) message /\
    mentions (last_name a) message /\
    mentions confirmation_number message /\
    account w' = account w /\
    process_reservations E ({| confirmationNumber := confirmation_number |} :: rest) w
      = process_reservations E rest w'.
Proof.
  cbv zeta. intros Hreply.
  assert (Hrun :
    _get_reservation_info E confirmation_number w
    = Return tt
        (did w 1
           ([Request "GET" (VIEW_RESERVATION_URL ++ confirmation_number)%string
               (headers (account w)) (Names (first_name (account w)) (last_name (account w)))]
            ++ notification_events (config (account w))
                 (reservation_error_message (account w) confirmation_number reason)
                 (Some (NotificationLevel_ERROR E))
            ++ [Print (reservation_error_message (account w) confirmation_number reason)]))).
  { unfold _get_reservation_info, bind at 1, get.
    unfold bind at 1, try_except_CheckInError, bind at 1.
    rewrite (make_request_raises _ _ _ _ _ w Hreply).
    unfold bind at 1. rewrite send_notification_spec.
    unfold bind, print, emit, ret, did; cbn [account now objects requests events].
    rewrite <- !app_assoc. reflexivity. }
  eexists. split; [exact Hrun|].
  cbn [did account now objects requests events].
  split; [reflexivity|].
  split.
  { rewrite !notifications_app, notifications_of_notification_events.
    cbn [notifications app]. rewrite ?app_nil_r. reflexivity. }
  split.
  { unfold reservation_error_message. apply mentions_intro. }
  split.
  { unfold reservation_error_message.
    exists ("Failed to retrieve reservation for " ++ first_name (account w) ++ " ")%string.
    eexists. rewrite !append_assoc. reflexivity. }
  split.
  { unfold reservation_error_message.
    exists ("Failed to retrieve reservation for " ++ first_name (account w) ++ " "
            ++ last_name (account w) ++ " with confirmation number ")%string.
    eexists. rewrite !append_assoc. reflexivity. }
  split; [reflexivity|].
  unfold process_reservations. cbn [for_each confirmationNumber].
  unfold bind at 1. rewrite Hrun. reflexivity.
Qed.

End Failures.

Section CheckIn.

Variable E : Env.

Lemma check_in_refused_at_first_request (self : Flight) (reason : string) (w : World) :
  let a := account w in
  let site := (CHECKIN_URL ++ confirmation_number self)%string in
  let info := Names (first_name a) (last_name a) in
  make_request_reply E (requests w) "GET" site (headers a) info
    = inl (CheckInError reason) ->
  _check_in E self w
  = Return tt (after_failed_check_in E self reason [Request "GET" site (headers a) info] w).
Proof.
  cbv zeta. intros Hreply.
  unfold _check_in, bind at 1, get. unfold bind at 1, print, emit.
  unfold bind at 1, try_except_CheckInError, bind at 1.
  cbn [account now objects requests events].
  erewrite make_request_raises by (cbn [requests]; exact Hreply).
  unfold bind at 1. rewrite send_notification_spec.
  unfold bind, ret, emit, after_failed_check_in, did, checking_in_message;
    cbn [account now objects requests events List.length].
  rewrite <- !app_assoc. reflexivity.
Qed.

Lemma check_in_refused_at_second_request (self : Flight) (reason href body : string)
    (w : World) :
  let a := account w in
  let site := (CHECKIN_URL ++ confirmation_number self)%string in
  let info := Names (first_name a) (last_name a) in
  make_request_reply E (requests w) "GET" site (headers a) info
    = inr (CheckInViewReservationPage href body) ->
  make_request_reply E (S (requests w)) "POST" ("mobile-air-operations" ++ href)%string
      (headers a) (Body body)
    = inl (CheckInError reason) ->
  _check_in E self w
  = Return tt (after_failed_check_in E self reason
                 [Request "GET" site (headers a) info;
                  Request "POST" ("mobile-air-operations" ++ href)%string (headers a)
                    (Body body)] w).
Proof.
  cbv zeta. intros Hget Hpost.
  unfold _check_in, bind at 1, get. unfold bind at 1, print, emit.
  unfold bind at 1, try_except_CheckInError, bind at 1.
  cbn [account now objects requests events].
  erewrite make_request_answers by (cbn [requests]; exact Hget).
  unfold bind at 1.
  erewrite make_request_raises by (cbn [did requests Nat.add]; exact Hpost).
  unfold bind at 1. rewrite send_notification_spec.
  unfold bind, ret, emit, after_failed_check_in, did, checking_in_message;
    cbn [account now objects requests events List.length Nat.add].
  rewrite <- !app_assoc. reflexivity.
Qed.

(** (C8) When a request of the check-in fails with a [CheckInError], whether
    the first one (GET) or the second (POST), [_check_in] calls
    [send_notification] once, with the level ERROR and a message that holds
    the confirmation number and the address to check in at by hand, prints
    the message and returns: the requests made are those up to the failed
    one, each made once, and none follows. *)
Theorem failed_check_in_is_reported_once_and_not_retried (self : Flight)
    (reason : string) (made : list Event) (w : World) :
  let a := account w in
  let site := (CHECKIN_URL ++ confirmation_number self)%string in
  let info := Names (first_name a) (last_name a) in
  let message :=
    checkin_error_message self (first_name a ++ " " ++ last_name a)%string reason in
  (make_request_reply E (requests w) "GET" site (headers a) info
     = inl (CheckInError reason)
   /\ made = [Request "GET" site (headers a) info])
  \/ (exists href body,
        make_request_reply E (requests w) "GET" site (headers a) info
          = inr (CheckInViewReservationPage href body)
        /\ make_request_reply E (S (requests w)) "POST"
             ("mobile-air-operations" ++ href)%string (headers a) (Body body)
           = inl (CheckInError reason)
        /\ made = [Request "GET" site (headers a) info;
                   Request "POST" ("mobile-air-operations" ++ href)%string (headers a)
                     (Body body)]) ->
  exists w',
    _check_in E self w = Return tt w' /\
    events w' = events w ++ [Print (checking_in_message self a)] ++ made
                ++ notification_events (config a) message
                     (Some (NotificationLevel_ERROR E))
                ++ [Print message] /\
    notifications (events w')
      = notifications (events w) ++ [(message, Some (NotificationLevel_ERROR E))] /\
    requests w' = (List.length made + requests w)%nat /\
    mentions (confirmation_number self) message /\
    mentions MANUAL_CHECKIN_URL message /\
    account w' = account w.
Proof.
  cbv zeta. intros Hfail.
  exists (after_failed_check_in E self reason made w).
  split.
  { destruct Hfail as [[Hget ->] | (href & body & Hget & Hpost & ->)].
    - apply check_in_refused_at_first_request, Hget.
    - apply check_in_refused_at_second_request; assumption. }
  unfold after_failed_check_in; cbn [did account now objects requests events].
  split; [reflexivity|].
  split.
  { rewrite !notifications_app, notifications_of_notification_events.
    assert (Hmade : notifications made = []).
    { destruct Hfail as [[_ ->] | (href & body & _ & _ & ->)]; reflexivity. }
    rewrite Hmade. cbn [notifications app]. rewrite ?app_nil_r. reflexivity. }
  split; [reflexivity|].
  split.
  { unfold checkin_error_message. apply mentions_intro. }
  split; [|reflexivity].
  unfold checkin_error_message.
  exists ("Failed to check in to flight " ++ confirmation_number self ++ " for "
          ++ (first_name (account w) ++ " " ++ last_name (account w)) ++ ". Reason: "
          ++ reason ++ ".
Check in at this url: ")%string.
  eexists. rewrite !append_assoc. reflexivity.
Qed.

End CheckIn.

(** The two theorems above on the demo server, which knows no reservation
    BAD000 and refuses every check-in. *)
Lemma failed_retrieval_witness :
  exists w',
    _get_reservation_info (Demo.env 0) "BAD000" (Demo.start (Demo.john []) 0)
      = Return tt w' /\
    notifications (events w')
      = [("Failed to retrieve reservation for John Doe with confirmation number BAD000. Reason: 404 Not Found.
Make sure the flight information is correct and try again.
", Some 2)] /\
    account w' = Demo.john [] /\
    process_reservations (Demo.env 0)
      [{| confirmationNumber := "BAD000" |}; {| confirmationNumber := "OLD456" |}]
      (Demo.start (Demo.john []) 0)
    = process_reservations (Demo.env 0) [{| confirmationNumber := "OLD456" |}] w'.
Proof.
  destruct (failed_retrieval_is_reported_and_isolated (Demo.env 0) "BAD000"
              "404 Not Found" [{| confirmationNumber := "OLD456" |}]
              (Demo.start (Demo.john []) 0) eq_refl)
    as (w' & Hrun & _ & Hnotes & _ & _ & _ & Haccount & Hrest).
  exists w'. repeat split; assumption.
Defined.

Lemma failed_check_in_witness :
  let self := Demo.lax_jfk 0 "ABC123" in
  let w := Demo.start (Demo.john [self]) 0 in
  exists w',
    _check_in (Demo.env 0) self w = Return tt w' /\
    notifications (events w')
      = [("Failed to check in to flight ABC123 for John Doe. Reason: 404 Not Found.
Check in at this url: https://mobile.southwest.com/check-in
", Some 2)] /\
    requested (events w') = [("GET", (CHECKIN_URL ++ "ABC123")%string)] /\
    requests w' = 1%nat.
Proof.
  cbv zeta.
  destruct (failed_check_in_is_reported_once_and_not_retried (Demo.env 0)
              (Demo.lax_jfk 0 "ABC123") "404 Not Found"
              [Request "GET" (CHECKIN_URL ++ "ABC123")%string [("X-API-Key", "stale")]
                 (Names "John" "Doe")]
              (Demo.start (Demo.john [Demo.lax_jfk 0 "ABC123"]) 0)
              (or_introl (conj eq_refl eq_refl)))
    as (w' & Hrun & Hevents & Hnotes & Hcount & _).
  exists w'. split; [exact Hrun|]. split; [exact Hnotes|].
  split; [|exact Hcount].
  rewrite Hevents. reflexivity.
Defined.

(** *** The announcement of new flights *)

Section Announcement.

Variable E : Env.

Lemma fold_left_flight_lines (fl : list Flight) (init : string) :
  fold_left (fun msg flight => (msg ++ flight_line E flight)%string) fl init
  = (init ++ flight_lines E fl)%string.
Proof.
  revert init. induction fl as [|f fl IH]; intros init; cbn [fold_left flight_lines].
  - induction init as [|c init IHi]; cbn; [reflexivity | rewrite <- IHi; reflexivity].
  - rewrite IH, append_assoc. reflexivity.
Qed.

Lemma flight_lines_app (fl fl' : list Flight) :
  flight_lines E (fl ++ fl') = (flight_lines E fl ++ flight_lines E fl')%string.
Proof.
  induction fl as [|f fl IH]; cbn [app flight_lines]; [reflexivity|].
  rewrite IH, append_assoc. reflexivity.
Qed.

(** The announcement holds the line of each flight added since the list had
    [prev_flight_len] elements. *)
Lemma flight_schedule_message_lists (a : Account) (prev_flight_len : nat) (f : Flight) :
  In f (skipn prev_flight_len (flights a)) ->
  mentions (flight_line E f) (flight_schedule_message E a prev_flight_len).
Proof.
  intros Hin. unfold flight_schedule_message. rewrite fold_left_flight_lines.
  destruct (in_split _ _ Hin) as (l1 & l2 & ->).
  rewrite flight_lines_app. cbn [flight_lines].
  eexists. exists (flight_lines E l2).
  rewrite <- !append_assoc. reflexivity.
Qed.

(** [_send_new_flight_notifications] by itself, called with a previous
    length that the list of flights has not fallen below: when the list is
    longer than it was, [send_notification] is called once, with the level INFO and a
    message that holds, for each flight added since, its two airports and
    its departure time in UTC; when the list is as long as it was, nothing
    happens at all. *)
Theorem new_flights_are_announced_once (prev_flight_len : nat) (w : World) :
  let a := account w in
  let message := flight_schedule_message E a prev_flight_len in
  (prev_flight_len <= List.length (flights a))%nat ->
  exists w',
    _send_new_flight_notifications E prev_flight_len w = Return tt w' /\
    ((prev_flight_len < List.length (flights a))%nat ->
     events w' = events w
                 ++ notification_events (config a) message (Some (NotificationLevel_INFO E))
     /\ notifications (events w')
        = notifications (events w) ++ [(message, Some (NotificationLevel_INFO E))]
     /\ account w' = account w
     /\ forall f, In f (skipn prev_flight_len (flights a)) ->
          mentions ("Flight from " ++ departure_airport f ++ " to "
                    ++ destination_airport f ++ " at "
                    ++ str_datetime E (departure_time f) ++ " UTC
")%string message) /\
    (List.length (flights a) = prev_flight_len -> w' = w).
Proof.
  cbv zeta. intros Hle.
  unfold _send_new_flight_notifications, bind, get.
  destruct (List.length (flights (account w)) =? prev_flight_len)%nat eqn:Hlen.
  - apply Nat.eqb_eq in Hlen. exists w. split; [reflexivity|].
    split; [intros Hlt; lia | reflexivity].
  - apply Nat.eqb_neq in Hlen. rewrite send_notification_spec.
    eexists. split; [reflexivity|]. split; [|intros Heq; contradiction].
    intros _. cbn [did account now objects requests events].
    split; [reflexivity|]. split.
    { rewrite notifications_app, notifications_of_notification_events. reflexivity. }
    split; [reflexivity|].
    intros f Hin. apply (flight_schedule_message_lists _ _ _ Hin).
Qed.

End Announcement.

Lemma new_flights_witness :
  let f := Demo.lax_jfk 0 "ABC123" in
  let w := Demo.start (Demo.john [f]) 0 in
  (exists w',
     _send_new_flight_notifications (Demo.env 0) 0 w = Return tt w' /\
     notifications (events w')
     = [("Successfully scheduled the following flights to check in for John Doe:
Flight from Los Angeles to New York at 2021-12-06 13:30:00 UTC
", Some 1)])
  /\ _send_new_flight_notifications (Demo.env 0) 1 w = Return tt w.
Proof.
  cbv zeta. split.
  - destruct (new_flights_are_announced_once (Demo.env 0) 0
                (Demo.start (Demo.john [Demo.lax_jfk 0 "ABC123"]) 0) (Nat.le_0_l _))
      as (w' & Hrun & Hgrew & _).
    exists w'. split; [exact Hrun|].
    destruct (Hgrew (Nat.lt_0_succ _)) as (_ & Hnotes & _). exact Hnotes.
  - destruct (new_flights_are_announced_once (Demo.env 0) 1
                (Demo.start (Demo.john [Demo.lax_jfk 0 "ABC123"]) 0) (Nat.le_refl _))
      as (w' & Hrun & _ & Hsame).
    rewrite Hrun. rewrite (Hsame eq_refl). reflexivity.
Defined.

(** *** The scheduler *)

Lemma keeps_ret {A} (a : A) : keeps_account (ret a).
Proof. intros w. reflexivity. Qed.

Lemma keeps_raise {A} (e : Exception) : keeps_account (@raise A e).
Proof. intros w. reflexivity. Qed.

Lemma keeps_get : keeps_account get.
Proof. intros w. reflexivity. Qed.

Lemma keeps_emit (e : Event) : keeps_account (emit e).
Proof. intros w. reflexivity. Qed.

Lemma keeps_new_object : keeps_account new_object.
Proof. intros w. reflexivity. Qed.

Lemma keeps_count_request : keeps_account count_request.
Proof. intros w. reflexivity. Qed.

Lemma keeps_bind {A B} (m : M A) (k : A -> M B) :
  keeps_account m -> (forall a, keeps_account (k a)) -> keeps_account (bind m k).
Proof.
  intros Hm Hk w. unfold bind. specialize (Hm w).
  destruct (m w) as [a w1 | e w1]; cbn [final] in *.
  - rewrite Hk. exact Hm.
  - exact Hm.
Qed.

Lemma keeps_try {A} (m : M A) (handler : string -> M A) :
  keeps_account m -> (forall reason, keeps_account (handler reason)) ->
  keeps_account (try_except_CheckInError m handler).
Proof.
  intros Hm Hh w. unfold try_except_CheckInError. specialize (Hm w).
  destruct (m w) as [a w1 | e w1]; cbn [final] in *; [exact Hm|].
  destruct e; cbn [final]; try exact Hm.
  rewrite Hh. exact Hm.
Qed.

Lemma keeps_for_each {A} (xs : list A) (body : A -> M unit) :
  (forall x, keeps_account (body x)) -> keeps_account (for_each xs body).
Proof.
  intros Hbody. induction xs as [|x xs IH]; cbn [for_each].
  - apply keeps_ret.
  - apply keeps_bind; [apply Hbody | intros _; exact IH].
Qed.

Create HintDb keeps discriminated.
#[local] Hint Resolve keeps_ret keeps_raise keeps_get keeps_emit keeps_new_object
  keeps_count_request : keeps.
#[local] Hint Extern 2 (keeps_account (bind _ _)) =>
  apply keeps_bind; [|intro] : keeps.
#[local] Hint Extern 2 (keeps_account (try_except_CheckInError _ _)) =>
  apply keeps_try; [|intro] : keeps.
#[local] Hint Extern 2 (keeps_account (for_each _ _)) =>
  apply keeps_for_each; intro : keeps.
#[local] Hint Extern 3 (keeps_account (match ?x with _ => _ end)) =>
  destruct x : keeps.
#[local] Hint Extern 3 (keeps_account (if ?x then _ else _)) =>
  destruct x : keeps.

Section Scheduler.

Variable E : Env.

Lemma keeps_send_notification (body : string) (level : option Z) :
  keeps_account (send_notification body level).
Proof. intros w. rewrite send_notification_spec. reflexivity. Qed.

Lemma keeps_make_request (method site : string) (h : Headers) (info : Payload) :
  keeps_account (make_request E method site h info).
Proof. unfold make_request. auto 10 with keeps. Qed.

Lemma keeps_Flight__init__ (cn : string) (b : Bound) :
  keeps_account (Flight__init__ E cn b).
Proof.
  unfold Flight__init__, _get_flight_time, _get_airport_timezone, _convert_to_utc.
  auto 12 with keeps.
Qed.

(** The loop over the bounds never changes the account: a flight that is to
    be appended is first asked for [schedule_check_in], which it has not. *)
Lemma keeps_schedule_bound (cn : string) (b : Bound) :
  keeps_account (schedule_bound E cn b).
Proof.
  unfold schedule_bound, _flight_is_scheduled, schedule_check_in.
  apply keeps_bind; [apply keeps_Flight__init__ | intros flight].
  auto 10 with keeps.
Qed.

Lemma keeps__get_reservation_info (cn : string) :
  keeps_account (_get_reservation_info E cn).
Proof.
  unfold _get_reservation_info, print.
  apply keeps_bind; [apply keeps_get | intros w0].
  apply keeps_bind.
  - apply keeps_try.
    + apply keeps_bind; [apply keeps_make_request | auto with keeps].
    + intros reason. apply keeps_bind; [apply keeps_send_notification|].
      auto 6 with keeps.
  - intros [[bounds| |]|]; auto using keeps_for_each, keeps_schedule_bound with keeps.
Qed.

Lemma keeps_process_reservations (reservations : list Reservation) :
  keeps_account (process_reservations E reservations).
Proof.
  unfold process_reservations. apply keeps_for_each.
  intros r. apply keeps__get_reservation_info.
Qed.

(** The comparison of [_flight_is_scheduled] looks at the departure instant
    and the two airports, and at nothing else: not at the confirmation
    number, not at the identity of the object. *)
Lemma same_flight_iff (f g : Flight) :
  same_flight f g = true <->
  departure_time f = departure_time g
  /\ departure_airport f = departure_airport g
  /\ destination_airport f = destination_airport g.
Proof.
  unfold same_flight. rewrite !andb_true_iff, Z.eqb_eq, !String.eqb_eq. tauto.
Qed.

Lemma same_flight_key (f g : Flight) :
  same_flight f g = true <-> flight_key f = flight_key g.
Proof.
  rewrite same_flight_iff. unfold flight_key. split.
  - intros (-> & -> & ->). reflexivity.
  - intros H. injection H as H1 H2 H3. auto.
Qed.

(** The guard of the append is the right one: appending a flight that
    [_flight_is_scheduled] does not find keeps the keys of the list
    distinct. *)
Lemma guarded_append_keeps_keys_distinct (fl : list Flight) (f : Flight) :
  NoDup (map flight_key fl) ->
  existsb (same_flight f) fl = false ->
  NoDup (map flight_key (fl ++ [f])).
Proof.
  intros Hdistinct Hnew. rewrite map_app. apply NoDup_app.
  - exact Hdistinct.
  - cbn [map]. constructor; [intros [] | constructor].
  - intros k Hin [<- | []].
    apply in_map_iff in Hin. destruct Hin as (g & Hkey & Hg).
    assert (Hfound : existsb (same_flight f) fl = true).
    { apply existsb_exists. exists g. split; [exact Hg|].
      apply same_flight_key. symmetry. exact Hkey. }
    congruence.
Qed.

Lemma keeps_account_flights {A} (m : M A) : keeps_account m -> keeps_flights m.
Proof. intros H w. rewrite H. reflexivity. Qed.

Lemma keeps_flights_bind {A B} (m : M A) (k : A -> M B) :
  keeps_flights m -> (forall a, keeps_flights (k a)) -> keeps_flights (bind m k).
Proof.
  intros Hm Hk w. unfold bind. specialize (Hm w).
  destruct (m w) as [a w1 | e w1]; cbn [final] in *.
  - rewrite Hk. exact Hm.
  - exact Hm.
Qed.

Lemma keeps_flights_refresh_headers : keeps_flights (refresh_headers E).
Proof.
  intros w. unfold refresh_headers, bind, get, advance.
  cbn [account now objects requests events].
  destruct (WebDriver_headers E _); reflexivity.
Qed.

Lemma keeps__send_new_flight_notifications (prev_flight_len : nat) :
  keeps_account (_send_new_flight_notifications E prev_flight_len).
Proof.
  unfold _send_new_flight_notifications.
  apply keeps_bind; [apply keeps_get | intros w0].
  destruct (List.length (flights (account w0)) =? prev_flight_len)%nat;
    [apply keeps_ret | apply keeps_send_notification].
Qed.

(** The list of tracked flights is the same after [get_checkin_info] as
    before, whatever the server answers; and so it is after [get_flights],
    if the retrieval of the reservations does not touch it. *)
Lemma get_checkin_info_never_tracks (cn : string) :
  keeps_flights (get_checkin_info E cn).
Proof.
  unfold get_checkin_info.
  apply keeps_flights_bind; [apply keeps_account_flights, keeps_get | intros w0].
  apply keeps_flights_bind; [apply keeps_flights_refresh_headers | intros _].
  apply keeps_account_flights.
  apply keeps_bind; [apply keeps__get_reservation_info | intros _].
  apply keeps__send_new_flight_notifications.
Qed.

Lemma get_flights_never_tracks :
  keeps_flights (WebDriver_reservations E) -> keeps_flights (get_flights E).
Proof.
  intros Hdriver. unfold get_flights.
  apply keeps_flights_bind; [apply keeps_account_flights, keeps_get | intros w0].
  apply keeps_flights_bind; [exact Hdriver | intros reservations].
  apply keeps_account_flights.
  apply keeps_bind; [apply keeps_process_reservations | intros _].
  apply keeps__send_new_flight_notifications.
Qed.

(** A bound that is to be scheduled: the flight is constructed, its process
    is started, and the call of [schedule_check_in] raises before the flight
    is appended. *)
Lemma schedule_bound_raises (cn : string) (b : Bound) (zone : string) (tz : tzinfo)
    (local : datetime) (w : World) :
  airport_timezones E (airport_code (departureAirport b)) = Some zone ->
  pytz_timezone E zone = Some tz ->
  strptime E (departureDate b ++ " " ++ departureTime b)%string = Some local ->
  let self := {| oid := objects w; confirmation_number := cn;
                 departure_time := local - utcoffset tz local;
                 departure_airport := airport_name (departureAirport b);
                 destination_airport := airport_name (arrivalAirport b) |} in
  departureStatus b <> "DEPARTED" ->
  existsb (same_flight self) (flights (account w)) = false ->
  schedule_bound E cn b w
  = Raise (AttributeError "'Flight' object has no attribute 'schedule_check_in'")
      {| account := account w; now := now w; objects := S (objects w);
         requests := requests w; events := events w ++ [Process_start self] |}.
Proof.
  intros Hzone Htz Hdate self Hstatus Hnew.
  unfold schedule_bound, bind at 1.
  rewrite (Flight__init__spec E cn b zone tz local w Hzone Htz Hdate).
  apply String.eqb_neq in Hstatus. rewrite Hstatus. cbn [negb].
  cbv [bind _flight_is_scheduled get ret]. cbn [account].
  fold self. rewrite Hnew. reflexivity.
Qed.

(** (C10) The constructor starts the flight's process, and it runs before
    the scheduler looks at the departure status or at the flights already
    tracked.  So for a bound that has departed, or whose flight is already
    tracked, handling the bound is constructing the flight and no more: the
    process is started all the same, and the account, with its list of
    flights, is as before. *)
Theorem process_is_started_before_the_checks (cn : string) (b : Bound) (zone : string)
    (tz : tzinfo) (local : datetime) (w : World) :
  airport_timezones E (airport_code (departureAirport b)) = Some zone ->
  pytz_timezone E zone = Some tz ->
  strptime E (departureDate b ++ " " ++ departureTime b)%string = Some local ->
  exists self w',
    Flight__init__ E cn b w = Return self w' /\
    events w' = events w ++ [Process_start self] /\
    started (events w') = started (events w) ++ [self] /\
    account w' = account w /\
    (departureStatus b = "DEPARTED"
     \/ existsb (same_flight self) (flights (account w)) = true ->
     schedule_bound E cn b w = Return tt w').
Proof.
  intros Hzone Htz Hdate.
  eexists; eexists. split.
  { apply (Flight__init__spec E cn b zone tz local w Hzone Htz Hdate). }
  cbn [account now objects requests events].
  split; [reflexivity|]. split; [apply started_app|]. split; [reflexivity|].
  intros Hskip.
  unfold schedule_bound, bind at 1.
  rewrite (Flight__init__spec E cn b zone tz local w Hzone Htz Hdate).
  destruct Hskip as [Hdeparted | Htracked].
  - rewrite Hdeparted. reflexivity.
  - destruct (negb (String.eqb (departureStatus b) "DEPARTED")); [|reflexivity].
    cbv [bind _flight_is_scheduled get ret]. cbn [account].
    rewrite Htracked. reflexivity.
Qed.

End Scheduler.

(** The theorem above on the demo server: a bound that has departed, and a
    bound whose flight John already tracks under another confirmation
    number. *)
Lemma process_is_started_witness :
  (exists self w',
     schedule_bound (Demo.env 0) "OLD456" Demo.departed_bound (Demo.start (Demo.john []) 0)
       = Return tt w' /\
     started (events w') = [self] /\
     flights (account w') = [])
  /\ (exists w',
        schedule_bound (Demo.env 0) "XYZ789" Demo.waiting_bound
          (Demo.start (Demo.john [Demo.lax_jfk 7 "ABC123"]) 0)
          = Return tt w' /\
        started (events w') = [Demo.lax_jfk 0 "XYZ789"] /\
        flights (account w') = [Demo.lax_jfk 7 "ABC123"]).
Proof.
  split.
  - destruct (process_is_started_before_the_checks (Demo.env 0) "OLD456"
                Demo.departed_bound "America/New_York" Demo.eastern Demo.mar_14_1200
                (Demo.start (Demo.john []) 0) eq_refl eq_refl eq_refl)
      as (self & w' & _ & _ & Hstarted & Haccount & Hskip).
    exists self, w'. split; [apply Hskip; left; reflexivity|].
    split; [exact Hstarted|]. rewrite Haccount. reflexivity.
  - destruct (process_is_started_before_the_checks (Demo.env 0) "XYZ789"
                Demo.waiting_bound "America/Los_Angeles" Demo.pacific Demo.dec_6_0530
                (Demo.start (Demo.john [Demo.lax_jfk 7 "ABC123"]) 0)
                eq_refl eq_refl eq_refl)
      as (self & w' & Hinit & _ & Hstarted & Haccount & Hskip).
    assert (Hself : self = Demo.lax_jfk 0 "XYZ789").
    { vm_compute in Hinit. injection Hinit as Hself _. symmetry. exact Hself. }
    subst self.
    exists w'. split; [apply Hskip; right; reflexivity|].
    split; [exact Hstarted|]. rewrite Haccount. reflexivity.
Defined.

(** (C2) A reservation whose details are fetched and whose one bound has not
    departed and is not tracked: the flight is constructed and its process
    is started, but the flight is not appended.  [_get_reservation_info]
    calls [flight.schedule_check_in()] before the append, [Flight] has no
    such attribute, and the [AttributeError] leaves the function with the
    list of flights still empty. *)
Theorem new_flight_is_started_but_not_appended :
  let w := Demo.start (Demo.john []) 0 in
  exists w',
    _get_reservation_info (Demo.env 0) "ABC123" w
      = Raise (AttributeError "'Flight' object has no attribute 'schedule_check_in'") w' /\
    requested (events w') = [("GET", Demo.view "ABC123")] /\
    started (events w') = [Demo.lax_jfk 0 "ABC123"] /\
    flights (account w') = [].
Proof.
  cbv zeta. eexists. split; [vm_compute; reflexivity|].
  repeat split.
Qed.

(** (C3) Two reservations that hold the same flight (same departure instant,
    same airports) under two confirmation numbers: the scheduler ends with
    no tracked flight, not with one.  The first reservation already fails
    with the [AttributeError] of [flight.schedule_check_in()]; the second is
    never fetched. *)
Theorem same_flight_twice_leaves_no_tracked_flight :
  let w := Demo.start (Demo.john []) 0 in
  exists w',
    process_reservations (Demo.env 0)
      [{| confirmationNumber := "ABC123" |}; {| confirmationNumber := "XYZ789" |}] w
      = Raise (AttributeError "'Flight' object has no attribute 'schedule_check_in'") w' /\
    requested (events w') = [("GET", Demo.view "ABC123")] /\
    started (events w') = [Demo.lax_jfk 0 "ABC123"] /\
    flights (account w') = [].
Proof.
  cbv zeta. eexists. split; [vm_compute; reflexivity|].
  repeat split.
Qed.



(** ** Further properties *)

(** *** Notifications, continued *)

(** (X12) A call of [send_notification] hands the message to the transport
    exactly when at least one URL is configured and the level is absent, 0,
    or not below the configured minimum; it then goes once, to all the
    configured URLs, under the fixed title.  Either way the call returns and
    changes neither the account nor the count of requests. *)
Theorem notification_reaches_the_transport_iff (w : World) (body : string)
    (level : option Z) :
  let cfg := config (account w) in
  let w' := final (send_notification body level w) in
  let reaches :=
    notification_urls cfg <> []
    /\ (forall l, level = Some l -> l = 0 \/ notification_level cfg <= l) in
  (reaches ->
   events w' = events w ++ [Send_notification body level;
                            Apprise_notify (notification_urls cfg)
                              "Auto Southwest Check-in Script" body])
  /\ (~ reaches -> events w' = events w ++ [Send_notification body level])
  /\ (exists u, send_notification body level w = Return u w')
  /\ account w' = account w /\ requests w' = requests w.
Proof.
  cbv zeta. rewrite send_notification_spec. cbn [final did account now requests events].
  unfold notification_events, passes.
  split; [|split; [|split; [exists tt; reflexivity | repeat split]]].
  - intros [Hurls Hlevel].
    destruct (List.length (notification_urls (config (account w))) =? 0)%nat eqn:Hlen.
    { apply no_urls in Hlen. contradiction. }
    destruct level as [l|]; cbn [truthy below negb andb]; [|reflexivity].
    destruct (Hlevel l eq_refl) as [-> | Hmin]; [reflexivity|].
    replace (l <? notification_level (config (account w))) with false
      by (symmetry; apply Z.ltb_ge; exact Hmin).
    rewrite andb_false_r. reflexivity.
  - intros Hnot.
    destruct (List.length (notification_urls (config (account w))) =? 0)%nat eqn:Hlen;
      [reflexivity|].
    cbn [negb andb].
    destruct (truthy level && below level (notification_level (config (account w))))
      eqn:Hheld; [reflexivity|].
    exfalso. apply Hnot. split.
    + intros Hnone. apply no_urls in Hnone. congruence.
    + intros l ->. cbn [truthy below] in Hheld.
      destruct (l =? 0) eqn:Hz; [left; apply Z.eqb_eq; exact Hz|].
      right. cbn [negb andb] in Hheld. apply Z.ltb_ge. exact Hheld.
Qed.

Lemma notification_reaches_the_transport_witness :
  let w := Demo.start (Demo.john []) 0 in
  delivered (events (final (send_notification "down" (Some 2) w))) = ["down"]
  /\ delivered (events (final (send_notification "fine" (Some 1) w))) = [].
Proof.
  cbv zeta. split.
  - rewrite (proj1 (notification_reaches_the_transport_iff
                      (Demo.start (Demo.john []) 0) "down" (Some 2))).
    + reflexivity.
    + split; [discriminate|].
      intros l Hl. injection Hl as <-. right. discriminate.
  - rewrite (proj1 (proj2 (notification_reaches_the_transport_iff
                             (Demo.start (Demo.john []) 0) "fine" (Some 1)))).
    + reflexivity.
    + intros [_ Hlevel]. destruct (Hlevel 1 eq_refl) as [H | H].
      * discriminate H.
      * apply H. reflexivity.
Defined.

(** *** The tracked flights *)

(** (X9) [_flight_is_scheduled] answers without changing anything, and its
    answer is [True] exactly when some tracked flight has the departure
    instant, the departure airport and the destination airport of the flight
    asked about; neither the confirmation number nor the identity of the
    object matters. *)
Theorem flight_is_scheduled_iff (flight : Flight) (w : World) :
  exists answer,
    _flight_is_scheduled flight w = Return answer w
    /\ (answer = true <->
        exists tracked,
          In tracked (flights (account w))
          /\ departure_time tracked = departure_time flight
          /\ departure_airport tracked = departure_airport flight
          /\ destination_airport tracked = destination_airport flight).
Proof.
  eexists. split; [reflexivity|].
  rewrite existsb_exists. split.
  - intros (g & Hin & Hsame). exists g. split; [exact Hin|].
    apply same_flight_iff in Hsame. destruct Hsame as (H1 & H2 & H3). auto.
  - intros (g & Hin & H1 & H2 & H3). exists g. split; [exact Hin|].
    apply same_flight_iff. auto.
Qed.

Lemma filter_idempotent {A} (p : A -> bool) (l : list A) :
  filter p (filter p l) = filter p l.
Proof.
  induction l as [|x l IH]; [reflexivity|].
  cbn [filter]. destruct (p x) eqn:Hx; [|exact IH].
  cbn [filter]. rewrite Hx, IH. reflexivity.
Qed.

(** The sweep, from its loop. *)
Lemma sweep_run (w : World) :
  remove_departed_flights w
  = Return tt (with_flights w (filter (not_departed (now w)) (flights (account w)))).
Proof.
  unfold remove_departed_flights, bind, utcnow, get.
  apply (sweep_loop (now w) (flights (account w)) [] w).
  - intros f [].
  - reflexivity.
Qed.

(** (X10) After the sweep every tracked flight departs at the current time
    or later, and a second sweep at the same time changes nothing: sweeping
    twice is sweeping once. *)
Theorem sweep_is_idempotent (w : World) :
  (remove_departed_flights ;; remove_departed_flights)%py w = remove_departed_flights w
  /\ Forall (fun f => now w <= departure_time f)
       (flights (account (final (remove_departed_flights w)))).
Proof.
  split.
  - unfold bind at 1. rewrite sweep_run. rewrite sweep_run.
    cbn [with_flights account set_flights flights now].
    rewrite filter_idempotent. reflexivity.
  - rewrite sweep_run. cbn [final with_flights account set_flights flights].
    apply Forall_forall. intros f Hin. apply filter_In in Hin.
    destruct Hin as [_ Hkept]. unfold not_departed in Hkept.
    apply negb_true_iff, Z.ltb_ge in Hkept. exact Hkept.
Qed.

Lemma NoDup_map_filter {A B} (key : A -> B) (p : A -> bool) (l : list A) :
  NoDup (map key l) -> NoDup (map key (filter p l)).
Proof.
  induction l as [|x l IH]; cbn [map filter]; intros Hdistinct; [constructor|].
  inversion Hdistinct as [|k ks Hnotin Hrest]; subst.
  destruct (p x); cbn [map]; [|apply IH, Hrest].
  constructor; [|apply IH, Hrest].
  intros Hin. apply Hnotin. apply in_map_iff in Hin.
  destruct Hin as (y & Hkey & Hy). apply filter_In in Hy.
  apply in_map_iff. exists y. split; [exact Hkey | apply Hy].
Qed.

(** (X11) The sweep adds no flight, and it keeps the tracked flights
    distinct: if no two of them agreed on departure instant, departure
    airport and destination airport before, no two do after. *)
Theorem sweep_keeps_flights_distinct (w : World) :
  let swept := flights (account (final (remove_departed_flights w))) in
  (forall f, In f swept -> In f (flights (account w)))
  /\ (NoDup (map flight_key (flights (account w))) -> NoDup (map flight_key swept)).
Proof.
  cbv zeta. rewrite sweep_run. cbn [final with_flights account set_flights flights].
  split.
  - intros f Hin. apply filter_In in Hin. apply Hin.
  - apply NoDup_map_filter.
Qed.

Lemma sweep_keeps_flights_distinct_witness :
  let later := Demo.lax_jfk 1 "ABC123" in
  let earlier :=
    {| oid := 0; confirmation_number := "OLD456"; departure_time := 63751320000000000;
       departure_airport := "New York"; destination_airport := "Los Angeles" |} in
  let w := Demo.start (Demo.john [earlier; later]) 63774000000000000 in
  In later (flights (account w))
  /\ NoDup (map flight_key (flights (account (final (remove_departed_flights w))))).
Proof.
  cbv zeta. split.
  - apply (proj1 (sweep_keeps_flights_distinct
                    (Demo.start (Demo.john [_; Demo.lax_jfk 1 "ABC123"]) 63774000000000000))).
    left. reflexivity.
  - apply (proj2 (sweep_keeps_flights_distinct _)).
    cbn. constructor; [|constructor; [intros [] | constructor]].
    intros [H | []]. discriminate H.
Defined.

(** *** The check-in, continued *)

Lemma request_headers_app (evs evs' : list Event) :
  request_headers (evs ++ evs') = request_headers evs ++ request_headers evs'.
Proof.
  induction evs as [|e evs IH]; [reflexivity|].
  destruct e; cbn [app request_headers]; rewrite IH; reflexivity.
Qed.

Lemma request_headers_of_notification_events (cfg : Config) (body : string)
    (level : option Z) :
  request_headers (notification_events cfg body level) = [].
Proof. unfold notification_events. destruct (passes cfg level); reflexivity. Qed.

Lemma fold_left_passenger_lines (ps : list Passenger) (init : string) :
  fold_left (fun msg p => (msg ++ passenger_line p)%string) ps init
  = (init ++ passenger_lines ps)%string.
Proof.
  revert init. induction ps as [|p ps IH]; intros init; cbn [fold_left passenger_lines].
  - induction init as [|c init IHi]; cbn; [reflexivity | rewrite <- IHi; reflexivity].
  - rewrite IH, append_assoc. reflexivity.
Qed.

Lemma passenger_lines_app (ps ps' : list Passenger) :
  passenger_lines (ps ++ ps') = (passenger_lines ps ++ passenger_lines ps')%string.
Proof.
  induction ps as [|p ps IH]; cbn [app passenger_lines]; [reflexivity|].
  rewrite IH, append_assoc. reflexivity.
Qed.

(** The two loops of [_send_results] add the passengers' lines flight after
    flight. *)
Lemma success_message_flat (self : Flight) (a : Account) (bp : list BoardingFlight) :
  success_message self a bp
  = (success_header self a ++ passenger_lines (flat_map passengers bp))%string.
Proof.
  unfold success_message. fold (success_header self a).
  generalize (success_header self a) as init.
  induction bp as [|flight bp IH]; intros init; cbn [fold_left flat_map passenger_lines].
  - induction init as [|c init IHi]; cbn; [reflexivity | rewrite <- IHi; reflexivity].
  - rewrite IH, fold_left_passenger_lines, passenger_lines_app, append_assoc.
    reflexivity.
Qed.

(** (X2) The message of a successful check-in is its first line followed by
    one line per passenger, flight after flight and in the order of the
    boarding pass, and nothing else; so every passenger of every flight is
    named with boarding group and position. *)
Theorem success_message_names_every_passenger (self : Flight) (a : Account)
    (bp : list BoardingFlight) :
  success_message self a bp
  = (success_header self a ++ passenger_lines (flat_map passengers bp))%string
  /\ forall flight p,
       In flight bp -> In p (passengers flight) ->
       mentions (passenger_name p ++ " got " ++ boardingGroup p ++ boardingPosition p
                 ++ "!
")%string (success_message self a bp).
Proof.
  split; [apply success_message_flat|].
  intros flight p Hflight Hp. rewrite success_message_flat.
  assert (Hin : In p (flat_map passengers bp)).
  { apply in_flat_map. exists flight. split; assumption. }
  destruct (in_split _ _ Hin) as (before & after & ->).
  rewrite passenger_lines_app. cbn [passenger_lines].
  exists (success_header self a ++ passenger_lines before)%string.
  exists (passenger_lines after).
  unfold passenger_line. rewrite !append_assoc. reflexivity.
Qed.

Lemma success_message_witness :
  mentions "Mary Doe got B03!
" (success_message (Demo.lax_jfk 0 "ABC123") (Demo.john []) Demo.boarding_pass).
Proof.
  apply (proj2 (success_message_names_every_passenger (Demo.lax_jfk 0 "ABC123")
                  (Demo.john []) Demo.boarding_pass)
           {| passengers := [ {| passenger_name := "John Doe"; boardingGroup := "A";
                                 boardingPosition := "16" |};
                              {| passenger_name := "Mary Doe"; boardingGroup := "B";
                                 boardingPosition := "03" |} ] |}
           {| passenger_name := "Mary Doe"; boardingGroup := "B";
              boardingPosition := "03" |}).
  - left. reflexivity.
  - right. left. reflexivity.
Defined.

Section CheckInOutcomes.

Variable E : Env.
Variable self : Flight.
Variable w : World.

Let a := account w.
Let site := (CHECKIN_URL ++ confirmation_number self)%string.
Let info := Names (first_name a) (last_name a).
Let first_request := Request "GET" site (headers a) info.
Let second_request (href body : string) :=
  Request "POST" ("mobile-air-operations" ++ href)%string (headers a) (Body body).

Lemma check_in_first_request_raises (e : Exception) :
  make_request_reply E (requests w) "GET" site (headers a) info = inl e ->
  is_CheckInError e = false ->
  _check_in E self w
  = Raise e (did w 1 [Print (checking_in_message self a); first_request]).
Proof.
  intros Hreply Hother.
  unfold _check_in, bind at 1, get. unfold bind at 1, print, emit.
  unfold bind at 1, try_except_CheckInError, bind at 1.
  cbn [account now objects requests events].
  erewrite make_request_raises by (cbn [requests]; exact Hreply).
  destruct e; try discriminate Hother;
    unfold did; cbn [account now objects requests events];
    rewrite <- !app_assoc; reflexivity.
Qed.

Lemma check_in_first_answer_unexpected (r : Response) :
  make_request_reply E (requests w) "GET" site (headers a) info = inr r ->
  (forall href body, r <> CheckInViewReservationPage href body) ->
  _check_in E self w
  = Raise (KeyError "checkInViewReservationPage")
      (did w 1 [Print (checking_in_message self a); first_request]).
Proof.
  intros Hreply Hother.
  unfold _check_in, bind at 1, get. unfold bind at 1, print, emit.
  unfold bind at 1, try_except_CheckInError, bind at 1.
  cbn [account now objects requests events].
  erewrite make_request_answers by (cbn [requests]; exact Hreply).
  destruct r as [bounds | href body | bp];
    try (exfalso; apply (Hother href body); reflexivity);
    unfold raise, did; cbn [account now objects requests events];
    rewrite <- !app_assoc; reflexivity.
Qed.

Lemma check_in_second_request_raises (href body : string) (e : Exception) :
  make_request_reply E (requests w) "GET" site (headers a) info
    = inr (CheckInViewReservationPage href body) ->
  make_request_reply E (S (requests w)) "POST" ("mobile-air-operations" ++ href)%string
    (headers a) (Body body) = inl e ->
  is_CheckInError e = false ->
  _check_in E self w
  = Raise e (did w 2 [Print (checking_in_message self a); first_request;
                      second_request href body]).
Proof.
  intros Hget Hpost Hother.
  unfold _check_in, bind at 1, get. unfold bind at 1, print, emit.
  unfold bind at 1, try_except_CheckInError, bind at 1.
  cbn [account now objects requests events].
  erewrite make_request_answers by (cbn [requests]; exact Hget).
  unfold bind at 1.
  erewrite make_request_raises by (cbn [did requests Nat.add]; exact Hpost).
  destruct e; try discriminate Hother;
    unfold did; cbn [account now objects requests events Nat.add];
    rewrite <- !app_assoc; reflexivity.
Qed.

Lemma check_in_second_answer (href body : string) (r : Response) :
  make_request_reply E (requests w) "GET" site (headers a) info
    = inr (CheckInViewReservationPage href body) ->
  make_request_reply E (S (requests w)) "POST" ("mobile-air-operations" ++ href)%string
    (headers a) (Body body) = inr r ->
  _check_in E self w
  = match r with
    | CheckInConfirmationPage bp =>
        Return tt
          (did w 2
             ([Print (checking_in_message self a); first_request;
               second_request href body]
              ++ notification_events (config a) (success_message self a bp)
                   (Some (NotificationLevel_INFO E))
              ++ [Print (success_message self a bp)]))
    | _ =>
        Raise (KeyError "checkInConfirmationPage")
          (did w 2 [Print (checking_in_message self a); first_request;
                    second_request href body])
    end.
Proof.
  intros Hget Hpost.
  unfold _check_in, bind at 1, get. unfold bind at 1, print, emit.
  unfold bind at 1, try_except_CheckInError, bind at 1.
  cbn [account now objects requests events].
  erewrite make_request_answers by (cbn [requests]; exact Hget).
  unfold bind at 1.
  erewrite make_request_answers by (cbn [did requests Nat.add]; exact Hpost).
  unfold ret at 1.
  destruct r as [bounds | href' body' | bp].
  - unfold raise, did; cbn [account now objects requests events Nat.add].
    rewrite <- !app_assoc. reflexivity.
  - unfold raise, did; cbn [account now objects requests events Nat.add].
    rewrite <- !app_assoc. reflexivity.
  - unfold _send_results, bind at 1, get. unfold bind at 1.
    rewrite send_notification_spec.
    unfold print, emit, did; cbn [account now objects requests events Nat.add].
    rewrite <- !app_assoc. reflexivity.
Qed.

End CheckInOutcomes.

(** (X1) A check-in the server accepts: [_check_in] makes the GET with the
    traveler's names, then the POST to the address and with the body the
    first answer gave, both with the account's headers; it calls
    [send_notification] once, with the level INFO and the success message
    built from the boarding pass, prints that message and returns, the
    account unchanged. *)
Theorem accepted_check_in_is_reported_once (E : Env) (self : Flight) (w : World)
    (href body : string) (bp : list BoardingFlight) :
  let a := account w in
  let site := (CHECKIN_URL ++ confirmation_number self)%string in
  let info := Names (first_name a) (last_name a) in
  let site' := ("mobile-air-operations" ++ href)%string in
  let message := success_message self a bp in
  make_request_reply E (requests w) "GET" site (headers a) info
    = inr (CheckInViewReservationPage href body) ->
  make_request_reply E (S (requests w)) "POST" site' (headers a) (Body body)
    = inr (CheckInConfirmationPage bp) ->
  exists w',
    _check_in E self w = Return tt w' /\
    events w' = events w
                ++ [Print (checking_in_message self a);
                    Request "GET" site (headers a) info;
                    Request "POST" site' (headers a) (Body body)]
                ++ notification_events (config a) message
                     (Some (NotificationLevel_INFO E))
                ++ [Print message] /\
    notifications (events w')
      = notifications (events w) ++ [(message, Some (NotificationLevel_INFO E))] /\
    requests w' = (2 + requests w)%nat /\
    account w' = account w.
Proof.
  cbv zeta. intros Hget Hpost.
  rewrite (check_in_second_answer E self w href body _ Hget Hpost).
  eexists. split; [reflexivity|].
  cbn [did account now objects requests events].
  split; [reflexivity|]. split; [|split; reflexivity].
  rewrite !notifications_app, notifications_of_notification_events.
  cbn [notifications app]. rewrite ?app_nil_r. reflexivity.
Qed.

Lemma accepted_check_in_witness :
  let E := Demo.with_server (Demo.env 0) Demo.welcoming in
  let self := Demo.lax_jfk 0 "ABC123" in
  exists w',
    _check_in E self (Demo.start (Demo.john [self]) 0) = Return tt w' /\
    notifications (events w')
      = [("Successfully checked in to flight from 'Los Angeles' to 'New York' for John Doe!
John Doe got A16!
Mary Doe got B03!
", Some 1)] /\
    requests w' = 2%nat.
Proof.
  cbv zeta.
  destruct (accepted_check_in_is_reported_once (Demo.with_server (Demo.env 0) Demo.welcoming)
              (Demo.lax_jfk 0 "ABC123")
              (Demo.start (Demo.john [Demo.lax_jfk 0 "ABC123"]) 0)
              "/v1/mobile-air-operations/page/check-in" "token" Demo.boarding_pass
              eq_refl eq_refl)
    as (w' & Hrun & _ & Hnotes & Hcount & _).
  exists w'. split; [exact Hrun|]. split; [exact Hnotes | exact Hcount].
Defined.

(** (X3) [_check_in] catches [CheckInError] and nothing else.  When a
    request raises another exception, when the first answer has no
    [checkInViewReservationPage] or when the second answer has no
    [checkInConfirmationPage], the exception ([KeyError] in the last two
    cases) leaves [_check_in]: [send_notification] is not called, and no
    request follows the one that went wrong. *)
Theorem other_check_in_failures_are_not_reported (E : Env) (self : Flight) (w : World)
    (e : Exception) :
  let a := account w in
  let site := (CHECKIN_URL ++ confirmation_number self)%string in
  let info := Names (first_name a) (last_name a) in
  let get := make_request_reply E (requests w) "GET" site (headers a) info in
  let post href body :=
    make_request_reply E (S (requests w)) "POST" ("mobile-air-operations" ++ href)%string
      (headers a) (Body body) in
  (get = inl e /\ is_CheckInError e = false)
  \/ (exists r, get = inr r
                /\ (forall href body, r <> CheckInViewReservationPage href body)
                /\ e = KeyError "checkInViewReservationPage")
  \/ (exists href body, get = inr (CheckInViewReservationPage href body)
                        /\ post href body = inl e /\ is_CheckInError e = false)
  \/ (exists href body r, get = inr (CheckInViewReservationPage href body)
                          /\ post href body = inr r
                          /\ (forall bp, r <> CheckInConfirmationPage bp)
                          /\ e = KeyError "checkInConfirmationPage") ->
  exists w',
    _check_in E self w = Raise e w' /\
    notifications (events w') = notifications (events w) /\
    delivered (events w') = delivered (events w) /\
    (requests w' <= 2 + requests w)%nat /\
    account w' = account w.
Proof.
  cbv zeta.
  intros [[Hget Hother]
         | [(r & Hget & Hother & ->)
           | [(href & body & Hget & Hpost & Hother)
             | (href & body & r & Hget & Hpost & Hother & ->)]]].
  - rewrite (check_in_first_request_raises E self w e Hget Hother).
    eexists. split; [reflexivity|]. cbn [did account now objects requests events].
    rewrite notifications_app, delivered_app. cbn. rewrite !app_nil_r.
    repeat split; lia.
  - rewrite (check_in_first_answer_unexpected E self w r Hget Hother).
    eexists. split; [reflexivity|]. cbn [did account now objects requests events].
    rewrite notifications_app, delivered_app. cbn. rewrite !app_nil_r.
    repeat split; lia.
  - rewrite (check_in_second_request_raises E self w href body e Hget Hpost Hother).
    eexists. split; [reflexivity|]. cbn [did account now objects requests events].
    rewrite notifications_app, delivered_app. cbn. rewrite !app_nil_r.
    repeat split; lia.
  - rewrite (check_in_second_answer E self w href body r Hget Hpost).
    destruct r as [bounds | href' body' | bp];
      try (exfalso; apply (Hother bp); reflexivity);
      (eexists; split; [reflexivity|]; cbn [did account now objects requests events];
       rewrite notifications_app, delivered_app; cbn; rewrite !app_nil_r;
       repeat split; lia).
Qed.

Lemma other_check_in_failures_witness :
  let E := Demo.with_server (Demo.env 0) Demo.confused in
  let self := Demo.lax_jfk 0 "ABC123" in
  exists w',
    _check_in E self (Demo.start (Demo.john [self]) 0)
      = Raise (KeyError "checkInViewReservationPage") w' /\
    notifications (events w') = [].
Proof.
  cbv zeta.
  destruct (other_check_in_failures_are_not_reported
              (Demo.with_server (Demo.env 0) Demo.confused) (Demo.lax_jfk 0 "ABC123")
              (Demo.start (Demo.john [Demo.lax_jfk 0 "ABC123"]) 0)
              (KeyError "checkInViewReservationPage"))
    as (w' & Hrun & Hnotes & _).
  - right. left. exists (CheckInConfirmationPage Demo.boarding_pass).
    split; [reflexivity|]. split; [|reflexivity].
    intros href body. discriminate.
  - exists w'. split; [exact Hrun | exact Hnotes].
Defined.

(** Every run of [_check_in], by its requests and their answers. *)
Lemma check_in_trace (E : Env) (self : Flight) (w : World) :
  exists (n : nat) (tail : list Event),
    (n = 1 \/ n = 2)%nat /\
    final (_check_in E self w) = did w n tail /\
    request_headers tail = repeat (headers (account w)) n /\
    (List.length (notifications tail) <= 1)%nat.
Proof.
  pose (a := account w).
  pose (site := (CHECKIN_URL ++ confirmation_number self)%string).
  pose (info := Names (first_name a) (last_name a)).
  destruct (make_request_reply E (requests w) "GET" site (headers a) info)
    as [e | r] eqn:Hget.
  - destruct (is_CheckInError e) eqn:He.
    + destruct e; try discriminate He.
      rewrite (check_in_refused_at_first_request E self reason w Hget).
      unfold after_failed_check_in. eexists 1%nat, _.
      split; [left; reflexivity|]. split; [reflexivity|].
      rewrite !request_headers_app, request_headers_of_notification_events.
      rewrite !notifications_app, notifications_of_notification_events.
      split; [reflexivity | cbn; lia].
    + rewrite (check_in_first_request_raises E self w e Hget He).
      eexists 1%nat, _. split; [left; reflexivity|]. split; [reflexivity|].
      split; [reflexivity | cbn; lia].
  - destruct r as [bounds | href body | bp].
    + rewrite (check_in_first_answer_unexpected E self w _ Hget)
        by (intros; discriminate).
      eexists 1%nat, _. split; [left; reflexivity|]. split; [reflexivity|].
      split; [reflexivity | cbn; lia].
    + destruct (make_request_reply E (S (requests w)) "POST"
                  ("mobile-air-operations" ++ href)%string (headers a) (Body body))
        as [e | r] eqn:Hpost.
      * destruct (is_CheckInError e) eqn:He.
        -- destruct e; try discriminate He.
           rewrite (check_in_refused_at_second_request E self reason href body w
                      Hget Hpost).
           unfold after_failed_check_in. eexists 2%nat, _.
           split; [right; reflexivity|]. split; [reflexivity|].
           rewrite !request_headers_app, request_headers_of_notification_events.
           rewrite !notifications_app, notifications_of_notification_events.
           split; [reflexivity | cbn; lia].
        -- rewrite (check_in_second_request_raises E self w href body e Hget Hpost He).
           eexists 2%nat, _. split; [right; reflexivity|]. split; [reflexivity|].
           split; [reflexivity | cbn; lia].
      * rewrite (check_in_second_answer E self w href body r Hget Hpost).
        destruct r as [bounds | href' body' | bp];
          eexists 2%nat, _; (split; [right; reflexivity|]); (split; [reflexivity|]);
          rewrite ?request_headers_app, ?request_headers_of_notification_events;
          rewrite ?notifications_app, ?notifications_of_notification_events;
          (split; [reflexivity | cbn; lia]).
    + rewrite (check_in_first_answer_unexpected E self w _ Hget)
        by (intros; discriminate).
      eexists 1%nat, _. split; [left; reflexivity|]. split; [reflexivity|].
      split; [reflexivity | cbn; lia].
Qed.

(** (X4) Whatever the server does, one run of [_check_in] makes one request
    or two, never more, all of them with the headers the account held when
    the run began; it calls [send_notification] at most once; and it leaves
    the account as it was. *)
Theorem check_in_is_one_attempt (E : Env) (self : Flight) (w : World) :
  let w' := final (_check_in E self w) in
  exists n,
    (n = 1 \/ n = 2)%nat /\
    requests w' = (n + requests w)%nat /\
    request_headers (events w')
      = request_headers (events w) ++ repeat (headers (account w)) n /\
    (List.length (notifications (events w'))
     <= 1 + List.length (notifications (events w)))%nat /\
    account w' = account w.
Proof.
  cbv zeta. destruct (check_in_trace E self w) as (n & tail & Hn & -> & Hheaders & Hnotes).
  exists n. cbn [did account now objects requests events].
  split; [exact Hn|]. split; [reflexivity|].
  rewrite request_headers_app, notifications_app, Hheaders, length_app.
  repeat split. lia.
Qed.

(** *** The wait of the timer, continued *)

Lemma fetched_app (evs evs' : list Event) :
  fetched (evs ++ evs') = fetched evs ++ fetched evs'.
Proof.
  induction evs as [|e evs IH]; [reflexivity|].
  destruct e; cbn [app fetched]; rewrite IH; reflexivity.
Qed.

(** The wait that begins more than ten minutes ahead and whose header fetch
    succeeds, whatever time the fetch takes. *)
Lemma wait_far_ahead (E : Env) (self : Flight) (t : datetime) (fresh : Headers)
    (w : World) :
  let wake := t - mk_timedelta 0 0 10 in
  let back := wake + WebDriver_elapsed E wake in
  let refreshed :=
    {| account := set_headers (account w) fresh; now := back;
       objects := objects w; requests := requests w;
       events := events w ++ [Print (scheduling_message E self (account w) t);
                              Sleep (wake - now w);
                              Refresh_headers fresh] |} in
  now w < wake ->
  WebDriver_headers E wake = inr fresh ->
  _wait_for_check_in E self t w
  = if t - back <? 0
    then Raise (ValueError "sleep length must be non-negative") refreshed
    else Return tt
           {| account := account refreshed; now := t; objects := objects w;
              requests := requests w;
              events := events refreshed ++ [Sleep (t - back)] |}.
Proof.
  cbv zeta. intros Hfar Hfresh.
  rewrite (wait_up_to_the_fetch E self t w Hfar), Hfresh.
  unfold bind, emit, time_sleep, raise. cbn [account now objects requests events].
  destruct (t - (t - mk_timedelta 0 0 10 + WebDriver_elapsed E (t - mk_timedelta 0 0 10))
            <? 0).
  - rewrite <- !app_assoc. reflexivity.
  - unfold bind, emit, advance. cbn [account now objects requests events].
    rewrite <- !app_assoc. cbn [app]. do 2 f_equal. lia.
Qed.

(** The wait that begins at most ten minutes ahead. *)
Lemma wait_near (E : Env) (self : Flight) (t : datetime) (w : World) :
  now w < t ->
  t - now w <= mk_timedelta 0 0 10 ->
  _wait_for_check_in E self t w
  = Return tt
      {| account := account w; now := t; objects := objects w; requests := requests w;
         events := events w ++ [Print (scheduling_message E self (account w) t);
                                Sleep (t - now w)] |}.
Proof.
  intros Hlt Hnear.
  unfold _wait_for_check_in, bind, utcnow, get, print, emit, time_sleep, ret; cbv beta iota.
  assert (H1 : (t <=? now w) = false) by (apply Z.leb_gt; lia).
  assert (H2 : (0 <? t - now w - mk_timedelta 0 0 10) = false) by (apply Z.ltb_ge; lia).
  assert (H3 : (t - now w <? 0) = false) by (apply Z.ltb_ge; lia).
  rewrite H1; cbn [account now objects requests events].
  rewrite H2; cbn [account now objects requests events].
  rewrite H3. unfold bind, emit, advance; cbn [account now objects requests events].
  rewrite <- app_assoc. cbn [app]. do 2 f_equal. lia.
Qed.

(** Every way the wait can go, by the time it begins and by what becomes of
    the header fetch.  The world it ends in is the one it began in, later,
    with more events, and with new headers if it fetched any. *)
Lemma wait_outcomes (E : Env) (self : Flight) (t : datetime) (w : World) :
  let outcome := _wait_for_check_in E self t w in
  let w' := final outcome in
  let wake := t - mk_timedelta 0 0 10 in
  exists tail,
    events w' = events w ++ tail /\
    requested tail = [] /\
    notifications tail = [] /\
    requests w' = requests w /\
    flights (account w') = flights (account w) /\
    ((wake <= now w /\ fetched tail = [] /\ account w' = account w
      /\ exists u, outcome = Return u w' /\ t <= now w')
     \/ (now w < wake /\ fetched tail = [] /\ account w' = account w
         /\ exists e, outcome = Raise e w' /\ WebDriver_headers E wake = inl e)
     \/ (now w < wake /\ fetched tail = [headers (account w')]
         /\ WebDriver_headers E wake = inr (headers (account w'))
         /\ ((exists u, outcome = Return u w' /\ t <= now w')
             \/ exists e, outcome = Raise e w'))).
Proof.
  cbv zeta.
  destruct (Z_le_gt_dec t (now w)) as [Hdue | Hahead].
  { rewrite (wait_skipped_when_due E self t w Hdue). cbn [final].
    exists []. rewrite app_nil_r. repeat (split; [reflexivity|]).
    left. split; [unfold mk_timedelta; lia|]. repeat (split; [reflexivity|]).
    exists tt. split; [reflexivity | exact Hdue]. }
  destruct (Z_le_gt_dec (t - now w) (mk_timedelta 0 0 10)) as [Hnear | Hfar].
  { rewrite (wait_near E self t w) by lia.
    cbn [final account now objects requests events].
    eexists. split; [reflexivity|]. repeat (split; [reflexivity|]).
    left. split; [lia|]. repeat (split; [reflexivity|]).
    exists tt. split; [reflexivity | lia]. }
  assert (Hlt : now w < t - mk_timedelta 0 0 10) by lia.
  destruct (WebDriver_headers E (t - mk_timedelta 0 0 10)) as [e | fresh] eqn:Hfetch.
  { rewrite (wait_up_to_the_fetch E self t w Hlt), Hfetch.
    cbn [final account now objects requests events].
    eexists. split; [reflexivity|]. repeat (split; [reflexivity|]).
    right. left. split; [exact Hlt|]. repeat (split; [reflexivity|]).
    exists e. split; reflexivity. }
  rewrite (wait_far_ahead E self t fresh w Hlt Hfetch).
  destruct (t - (t - mk_timedelta 0 0 10 + WebDriver_elapsed E (t - mk_timedelta 0 0 10))
            <? 0) eqn:Hlate;
    cbn [final account now objects requests events set_headers flights headers];
    (eexists; split; [rewrite <- ?app_assoc; reflexivity|]);
    repeat (split; [reflexivity|]);
    right; right; (split; [exact Hlt|]); repeat (split; [reflexivity|]).
  - right. eexists. reflexivity.
  - left. exists tt. split; [reflexivity | lia].
Qed.

(** (X5) [_wait_for_check_in] never returns before the check-in instant:
    when it returns, the clock shows that instant or a later one.  And
    whether it returns or raises, the wait makes no request, calls
    [send_notification] not once and leaves the list of flights as it
    was. *)
Theorem wait_never_ends_early (E : Env) (self : Flight) (t : datetime) (w : World) :
  let outcome := _wait_for_check_in E self t w in
  let w' := final outcome in
  requested (events w') = requested (events w) /\
  notifications (events w') = notifications (events w) /\
  flights (account w') = flights (account w) /\
  match outcome with
  | Return _ _ => t <= now w'
  | Raise _ _ => True
  end.
Proof.
  cbv zeta.
  destruct (wait_outcomes E self t w)
    as (tail & Hevents & Hrequested & Hnotes & _ & Hflights & Hcases).
  cbv zeta in Hevents, Hflights, Hcases.
  rewrite Hevents, requested_app, notifications_app, Hrequested, Hnotes, !app_nil_r.
  repeat (split; [first [reflexivity | exact Hflights]|]).
  destruct Hcases as [(_ & _ & _ & u & Hrun & Hnow)
                     | [(Hfar & _ & _ & e & Hrun & _)
                       | (Hfar & _ & _ & [(u & Hrun & Hnow) | (e & Hrun)])]];
    rewrite Hrun in *; cbn [final] in *; first [exact Hnow | exact I].
Qed.

(** The theorem above for John's flight: a wait begun two days before the
    departure returns, and it returns at the check-in instant, 5 December,
    13:29:59 UTC. *)
Lemma wait_never_ends_early_witness :
  let self := Demo.lax_jfk 0 "ABC123" in
  let w := Demo.start (Demo.john [self]) (63774394200000000 - mk_timedelta 2 0 0) in
  exists w',
    _wait_for_check_in (Demo.env 0) self 63774307799000000 w = Return tt w'
    /\ 63774307799000000 <= now w'
    /\ requested (events w') = [].
Proof.
  cbv zeta.
  pose proof (wait_never_ends_early (Demo.env 0) (Demo.lax_jfk 0 "ABC123")
                63774307799000000
                (Demo.start (Demo.john [Demo.lax_jfk 0 "ABC123"])
                   (63774394200000000 - mk_timedelta 2 0 0))) as H.
  cbv zeta in H.
  destruct (_wait_for_check_in (Demo.env 0) (Demo.lax_jfk 0 "ABC123") 63774307799000000
              (Demo.start (Demo.john [Demo.lax_jfk 0 "ABC123"])
                 (63774394200000000 - mk_timedelta 2 0 0)))
    as [[] w1 | e w1] eqn:Hwait; [|vm_compute in Hwait; discriminate Hwait].
  cbn [final] in H. destruct H as (Hrequested & _ & _ & Hnow).
  exists w1. split; [reflexivity|]. split; [exact Hnow | exact Hrequested].
Defined.

(** (X6) The requests of the check-in, one or two, all carry the headers the
    account holds when the wait is over.  These are the headers the wait
    fetched, if it fetched any, which it does at most once; otherwise they
    are the headers the account held when the process was started, as for
    every process started within ten minutes of the check-in instant or
    after it.  A process whose wait fails makes no request. *)
Theorem check_in_requests_carry_the_latest_headers (E : Env) (self : Flight)
    (w : World) :
  let t := departure_time self - mk_timedelta 1 1 0 in
  let w' := final (_set_check_in E self w) in
  match _wait_for_check_in E self t w with
  | Return _ w1 =>
      (exists n,
         (n = 1 \/ n = 2)%nat /\
         request_headers (events w')
         = request_headers (events w) ++ repeat (headers (account w1)) n)
      /\ (exists hs,
            fetched (events w1) = fetched (events w) ++ hs
            /\ (List.length hs <= 1)%nat
            /\ headers (account w1) = last hs (headers (account w)))
      /\ (t - mk_timedelta 0 0 10 <= now w -> fetched (events w1) = fetched (events w))
  | Raise _ _ => request_headers (events w') = request_headers (events w)
  end.
Proof.
  cbv zeta.
  destruct (wait_outcomes E self (departure_time self - mk_timedelta 1 1 0) w)
    as (tail & Hevents & Hrequested & _ & _ & _ & Hcases).
  cbv zeta in Hevents, Hcases.
  assert (Hquiet : forall evs, requested evs = [] -> request_headers evs = []).
  { induction evs as [|ev evs IH]; [reflexivity|].
    destruct ev; cbn [requested request_headers]; try exact IH. discriminate. }
  unfold _set_check_in, bind.
  destruct (_wait_for_check_in E self (departure_time self - mk_timedelta 1 1 0) w)
    as [[] w1 | e w1]; cbn [final] in *.
  - split; [|split].
    + destruct (check_in_trace E self w1) as (n & tail' & Hn & -> & Hheaders & _).
      exists n. split; [exact Hn|].
      cbn [did events]. rewrite request_headers_app, Hheaders, Hevents.
      rewrite request_headers_app, (Hquiet tail Hrequested), app_nil_r. reflexivity.
    + exists (fetched tail). rewrite Hevents, fetched_app. split; [reflexivity|].
      destruct Hcases as [(_ & -> & -> & _) | [(_ & -> & -> & _) | (_ & -> & _)]];
        cbn [List.length last]; split; first [lia | reflexivity].
    + intros Hnear. rewrite Hevents, fetched_app.
      destruct Hcases as [(_ & -> & _) | [(Hfar & _) | (Hfar & _)]]; [|lia|lia].
      apply app_nil_r.
  - rewrite Hevents, request_headers_app, (Hquiet tail Hrequested), app_nil_r.
    reflexivity.
Qed.

(** The theorem above for John's flight, with a process started two days
    before the departure, whose requests carry the headers it fetched, and
    with one started five minutes before the check-in instant, whose
    requests carry the headers it was started with. *)
Lemma check_in_requests_witness :
  let self := Demo.lax_jfk 0 "ABC123" in
  let two_days_ahead := Demo.start (Demo.john [self]) (63774394200000000 - mk_timedelta 2 0 0) in
  let five_minutes_ahead :=
    Demo.start (Demo.john [self]) (63774307799000000 - mk_timedelta 0 0 5) in
  (exists n,
     (n = 1 \/ n = 2)%nat /\
     request_headers (events (final (_set_check_in (Demo.env 0) self two_days_ahead)))
     = repeat [("X-API-Key", "fresh")] n)
  /\ (exists n,
        (n = 1 \/ n = 2)%nat /\
        request_headers (events (final (_set_check_in (Demo.env 0) self five_minutes_ahead)))
        = repeat [("X-API-Key", "stale")] n).
Proof.
  cbv zeta. split.
  - pose proof (check_in_requests_carry_the_latest_headers (Demo.env 0)
                  (Demo.lax_jfk 0 "ABC123")
                  (Demo.start (Demo.john [Demo.lax_jfk 0 "ABC123"])
                     (63774394200000000 - mk_timedelta 2 0 0))) as H.
    cbv zeta in H.
    destruct (_wait_for_check_in (Demo.env 0) (Demo.lax_jfk 0 "ABC123")
                (departure_time (Demo.lax_jfk 0 "ABC123") - mk_timedelta 1 1 0)
                (Demo.start (Demo.john [Demo.lax_jfk 0 "ABC123"])
                   (63774394200000000 - mk_timedelta 2 0 0)))
      as [[] w1 | e w1] eqn:Hwait; [|vm_compute in Hwait; discriminate Hwait].
    destruct H as ((n & Hn & Hrequests) & _ & _).
    exists n. split; [exact Hn|]. rewrite Hrequests.
    vm_compute in Hwait. injection Hwait as <-. reflexivity.
  - pose proof (check_in_requests_carry_the_latest_headers (Demo.env 0)
                  (Demo.lax_jfk 0 "ABC123")
                  (Demo.start (Demo.john [Demo.lax_jfk 0 "ABC123"])
                     (63774307799000000 - mk_timedelta 0 0 5))) as H.
    cbv zeta in H.
    destruct (_wait_for_check_in (Demo.env 0) (Demo.lax_jfk 0 "ABC123")
                (departure_time (Demo.lax_jfk 0 "ABC123") - mk_timedelta 1 1 0)
                (Demo.start (Demo.john [Demo.lax_jfk 0 "ABC123"])
                   (63774307799000000 - mk_timedelta 0 0 5)))
      as [[] w1 | e w1] eqn:Hwait; [|vm_compute in Hwait; discriminate Hwait].
    destruct H as ((n & Hn & Hrequests) & (hs & Hfetched & _ & Hheaders) & Hnear).
    specialize (Hnear ltac:(discriminate)).
    rewrite Hnear in Hfetched.
    assert (Hnone : hs = []).
    { apply (app_inv_head (fetched (events
               (Demo.start (Demo.john [Demo.lax_jfk 0 "ABC123"])
                  (63774307799000000 - mk_timedelta 0 0 5))))).
      rewrite app_nil_r. symmetry. exact Hfetched. }
    rewrite Hnone in Hheaders. cbn [last] in Hheaders.
    exists n. split; [exact Hn|]. rewrite Hrequests, Hheaders. reflexivity.
Defined.

(** *** The constructor, continued *)

Section ConstructorOutcomes.

Variable E : Env.

Lemma Flight__init__departure (cn : string) (b : Bound) (t : datetime) (w : World) :
  departure_of E b = Some t ->
  Flight__init__ E cn b w
  = Return (built cn b t (objects w))
      {| account := account w; now := now w; objects := S (objects w);
         requests := requests w;
         events := events w ++ [Process_start (built cn b t (objects w))] |}.
Proof.
  unfold departure_of. intros Hdeparture.
  destruct (airport_timezones E (airport_code (departureAirport b))) as [zone|] eqn:Hzone;
    [|discriminate].
  destruct (pytz_timezone E zone) as [tz|] eqn:Htz; [|discriminate].
  destruct (strptime E (departureDate b ++ " " ++ departureTime b)%string)
    as [local|] eqn:Hdate; [|discriminate].
  injection Hdeparture as <-.
  apply (Flight__init__spec E cn b zone tz local w Hzone Htz Hdate).
Qed.

Lemma Flight__init__no_departure (cn : string) (b : Bound) (w : World) :
  departure_of E b = None ->
  exists e,
    Flight__init__ E cn b w
    = Raise e {| account := account w; now := now w; objects := S (objects w);
                 requests := requests w; events := events w |}
    /\ is_CheckInError e = false.
Proof.
  unfold departure_of. intros Hdeparture.
  unfold Flight__init__, _get_flight_time, _get_airport_timezone, _convert_to_utc,
    bind, new_object, raise; cbv beta zeta.
  destruct (airport_timezones E (airport_code (departureAirport b))) as [zone|];
    [|eexists; split; reflexivity].
  destruct (pytz_timezone E zone) as [tz|]; [|eexists; split; reflexivity].
  cbv beta iota.
  destruct (strptime E (departureDate b ++ " " ++ departureTime b)%string)
    as [local|]; [discriminate | eexists; split; reflexivity].
Qed.

(** (X7) The constructor looks up the time zone of the departure airport
    before it parses the date.  An airport code that is not in the table
    gives [KeyError] with that code, whatever the date; a zone name pytz does
    not know gives [UnknownTimeZoneError]; only then does a date that does
    not parse give [ValueError].  The process of the flight is started
    exactly when none of these fails, and the account is untouched either
    way. *)
Theorem constructor_fails_before_it_starts_a_process (cn : string) (b : Bound)
    (w : World) :
  let code := airport_code (departureAirport b) in
  let date := (departureDate b ++ " " ++ departureTime b)%string in
  let outcome := Flight__init__ E cn b w in
  (airport_timezones E code = None ->
   exists w', outcome = Raise (KeyError code) w')
  /\ (forall zone,
        airport_timezones E code = Some zone -> pytz_timezone E zone = None ->
        exists w', outcome = Raise (UnknownTimeZoneError zone) w')
  /\ (forall zone tz,
        airport_timezones E code = Some zone -> pytz_timezone E zone = Some tz ->
        strptime E date = None ->
        exists message w', outcome = Raise (ValueError message) w')
  /\ started (events (final outcome))
     = started (events w)
       ++ match departure_of E b with
          | Some t => [built cn b t (objects w)]
          | None => []
          end
  /\ account (final outcome) = account w.
Proof.
  cbv zeta. split; [|split; [|split]].
  - intros Hzone.
    unfold Flight__init__, _get_flight_time, _get_airport_timezone, bind, new_object,
      raise; cbv beta zeta.
    rewrite Hzone. eexists. reflexivity.
  - intros zone Hzone Htz.
    unfold Flight__init__, _get_flight_time, _get_airport_timezone, bind, new_object,
      raise; cbv beta zeta.
    rewrite Hzone, Htz. eexists. reflexivity.
  - intros zone tz Hzone Htz Hdate.
    unfold Flight__init__, _get_flight_time, _get_airport_timezone, _convert_to_utc,
      bind, new_object, raise; cbv beta zeta.
    rewrite Hzone, Htz. cbv beta iota. rewrite Hdate. eexists. eexists. reflexivity.
  - destruct (departure_of E b) as [t|] eqn:Hdeparture.
    + rewrite (Flight__init__departure cn b t w Hdeparture).
      cbn [final account events]. rewrite started_app. split; reflexivity.
    + destruct (Flight__init__no_departure cn b w Hdeparture) as (e & -> & _).
      cbn [final account events]. rewrite app_nil_r. split; reflexivity.
Qed.

End ConstructorOutcomes.

Lemma constructor_fails_witness :
  let w := Demo.start (Demo.john []) 0 in
  let misfiled := Demo.with_timezones (Demo.env 0) (fun _ => Some "Mars/Olympus") in
  (exists w', Flight__init__ (Demo.env 0) "ABC123" Demo.uncharted_bound w
              = Raise (KeyError "???") w')
  /\ (exists w', Flight__init__ misfiled "ABC123" Demo.garbled_bound w
                 = Raise (UnknownTimeZoneError "Mars/Olympus") w')
  /\ (exists message w', Flight__init__ (Demo.env 0) "ABC123" Demo.garbled_bound w
                         = Raise (ValueError message) w').
Proof.
  cbv zeta. split; [|split].
  - apply (proj1 (constructor_fails_before_it_starts_a_process (Demo.env 0) "ABC123"
                    Demo.uncharted_bound (Demo.start (Demo.john []) 0))).
    reflexivity.
  - apply (proj1 (proj2 (constructor_fails_before_it_starts_a_process
                           (Demo.with_timezones (Demo.env 0) (fun _ => Some "Mars/Olympus"))
                           "ABC123" Demo.garbled_bound (Demo.start (Demo.john []) 0)))
             "Mars/Olympus"); reflexivity.
  - apply (proj1 (proj2 (proj2 (constructor_fails_before_it_starts_a_process
                                  (Demo.env 0) "ABC123" Demo.garbled_bound
                                  (Demo.start (Demo.john []) 0))))
             "America/Los_Angeles" Demo.pacific); reflexivity.
Defined.

(** *** The scheduler, continued *)

Section SchedulerOutcomes.

Variable E : Env.

(** The loop body on a bound that is passed over. *)
Lemma schedule_bound_passed_over (cn : string) (b : Bound) (t : datetime) (w : World) :
  departure_of E b = Some t ->
  departureStatus b = "DEPARTED"
  \/ existsb (same_flight (built "" b t 0)) (flights (account w)) = true ->
  schedule_bound E cn b w
  = Return tt {| account := account w; now := now w; objects := S (objects w);
                 requests := requests w;
                 events := events w ++ [Process_start (built cn b t (objects w))] |}.
Proof.
  intros Hdeparture Hskip.
  unfold schedule_bound, bind at 1.
  rewrite (Flight__init__departure E cn b t w Hdeparture).
  destruct Hskip as [Hdeparted | Htracked].
  - rewrite Hdeparted. reflexivity.
  - destruct (negb (String.eqb (departureStatus b) "DEPARTED")); [|reflexivity].
    cbv [bind _flight_is_scheduled get ret]. cbn [account].
    change (existsb (same_flight (built cn b t (objects w))) (flights (account w)))
      with (existsb (same_flight (built "" b t 0)) (flights (account w))).
    rewrite Htracked. reflexivity.
Qed.

(** The loop body on a bound whose departure instant cannot be computed. *)
Lemma schedule_bound_no_departure (cn : string) (b : Bound) (w : World) :
  departure_of E b = None ->
  exists e,
    schedule_bound E cn b w
    = Raise e {| account := account w; now := now w; objects := S (objects w);
                 requests := requests w; events := events w |}
    /\ is_CheckInError e = false.
Proof.
  intros Hdeparture.
  destruct (Flight__init__no_departure E cn b w Hdeparture) as (e & Hrun & He).
  exists e. split; [|exact He].
  unfold schedule_bound, bind at 1. rewrite Hrun. reflexivity.
Qed.

(** The loop over bounds that are all passed over. *)
Lemma for_each_passed_over (cn : string) (bounds : list Bound) :
  forall w,
    Forall (passed_over E (flights (account w))) bounds ->
    for_each bounds (schedule_bound E cn) w
    = Return tt {| account := account w; now := now w;
                   objects := (List.length bounds + objects w)%nat;
                   requests := requests w;
                   events := events w
                             ++ map Process_start
                                  (spawned_for E cn bounds (objects w)) |}
    /\ List.length (spawned_for E cn bounds (objects w)) = List.length bounds.
Proof.
  induction bounds as [|b bounds IH]; intros w Hall.
  - cbn [for_each spawned_for map List.length Nat.add]. rewrite app_nil_r.
    split; [|reflexivity]. destruct w; reflexivity.
  - inversion Hall as [|b' bs (t & Hdeparture & Hskip) Hrest]; subst.
    cbn [for_each spawned_for]. rewrite Hdeparture.
    unfold bind at 1.
    rewrite (schedule_bound_passed_over cn b t w Hdeparture Hskip).
    destruct (IH {| account := account w; now := now w; objects := S (objects w);
                    requests := requests w;
                    events := events w ++ [Process_start (built cn b t (objects w))] |}
                Hrest) as [Hrun Hlength].
    cbn [account now objects requests events] in Hrun, Hlength.
    rewrite Hrun. cbn [map List.length]. rewrite Hlength.
    split; [|reflexivity].
    rewrite <- app_assoc, Nat.add_succ_r. reflexivity.
Qed.

Section Retrieval.

Variable cn : string.
Variable w : World.

Let a := account w.
Let site := (VIEW_RESERVATION_URL ++ cn)%string.
Let info := Names (first_name a) (last_name a).
Let request := Request "GET" site (headers a) info.

Lemma retrieval_refused (reason : string) :
  make_request_reply E (requests w) "GET" site (headers a) info
    = inl (CheckInError reason) ->
  _get_reservation_info E cn w
  = Return tt
      (did w 1
         ([request]
          ++ notification_events (config a) (reservation_error_message a cn reason)
               (Some (NotificationLevel_ERROR E))
          ++ [Print (reservation_error_message a cn reason)])).
Proof.
  intros Hreply.
  unfold _get_reservation_info, bind at 1, get.
  unfold bind at 1, try_except_CheckInError, bind at 1.
  erewrite make_request_raises by exact Hreply.
  unfold bind at 1. rewrite send_notification_spec.
  unfold bind, print, emit, ret, did; cbn [account now objects requests events].
  rewrite <- !app_assoc. reflexivity.
Qed.

Lemma retrieval_raises (e : Exception) :
  make_request_reply E (requests w) "GET" site (headers a) info = inl e ->
  is_CheckInError e = false ->
  _get_reservation_info E cn w = Raise e (did w 1 [request]).
Proof.
  intros Hreply Hother.
  unfold _get_reservation_info, bind at 1, get.
  unfold bind at 1, try_except_CheckInError, bind at 1.
  erewrite make_request_raises by exact Hreply.
  destruct e; try discriminate Hother; reflexivity.
Qed.

Lemma retrieval_answered (r : Response) :
  make_request_reply E (requests w) "GET" site (headers a) info = inr r ->
  _get_reservation_info E cn w
  = match r with
    | ViewReservationViewPage bounds =>
        for_each bounds (schedule_bound E cn) (did w 1 [request])
    | _ => Raise (KeyError "viewReservationViewPage") (did w 1 [request])
    end.
Proof.
  intros Hreply.
  unfold _get_reservation_info, bind at 1, get.
  unfold bind at 1, try_except_CheckInError, bind at 1.
  erewrite make_request_answers by exact Hreply.
  unfold ret at 1. destruct r; reflexivity.
Qed.

End Retrieval.

End SchedulerOutcomes.

Lemma started_of_processes (fl : list Flight) : started (map Process_start fl) = fl.
Proof. induction fl as [|f fl IH]; cbn; [|rewrite IH]; reflexivity. Qed.

Lemma notifications_of_processes (fl : list Flight) :
  notifications (map Process_start fl) = [].
Proof. induction fl as [|f fl IH]; cbn; [|rewrite IH]; reflexivity. Qed.

Lemma started_of_notification_events (cfg : Config) (body : string) (level : option Z) :
  started (notification_events cfg body level) = [].
Proof. unfold notification_events. destruct (passes cfg level); reflexivity. Qed.

(** A loop ends at the first turn that raises. *)
Lemma for_each_stops {A} (body : A -> M unit) (before : list A) (x : A) (rest : list A)
    (e : Exception) :
  forall w w1 w2,
    for_each before body w = Return tt w1 ->
    body x w1 = Raise e w2 ->
    for_each (before ++ x :: rest) body w = Raise e w2.
Proof.
  induction before as [|y before IH]; intros w w1 w2 Hbefore Hx.
  - cbn [for_each] in Hbefore. injection Hbefore as <-.
    cbn [app for_each]. unfold bind. rewrite Hx. reflexivity.
  - cbn [app for_each] in *. unfold bind in *.
    destruct (body y w) as [[] w0 | e0 w0]; [|discriminate].
    apply (IH w0 w1 w2 Hbefore Hx).
Qed.

(** (X15) A reservation all of whose bounds have departed or are already
    tracked: [_get_reservation_info] makes its one request, constructs a
    flight for every bound, and so starts one process per bound, in the
    order of the bounds; it calls [send_notification] not at all, returns,
    and leaves the account as it was. *)
Theorem passed_over_bounds_each_start_a_process (E : Env) (cn : string)
    (bounds : list Bound) (w : World) :
  let a := account w in
  let site := (VIEW_RESERVATION_URL ++ cn)%string in
  let info := Names (first_name a) (last_name a) in
  make_request_reply E (requests w) "GET" site (headers a) info
    = inr (ViewReservationViewPage bounds) ->
  Forall (passed_over E (flights a)) bounds ->
  exists w',
    _get_reservation_info E cn w = Return tt w' /\
    events w' = events w ++ [Request "GET" site (headers a) info]
                ++ map Process_start (spawned_for E cn bounds (objects w)) /\
    started (events w') = started (events w) ++ spawned_for E cn bounds (objects w) /\
    List.length (spawned_for E cn bounds (objects w)) = List.length bounds /\
    notifications (events w') = notifications (events w) /\
    account w' = account w.
Proof.
  cbv zeta. intros Hreply Hall.
  rewrite (retrieval_answered E cn w _ Hreply).
  destruct (for_each_passed_over E cn bounds
              (did w 1 [Request "GET" (VIEW_RESERVATION_URL ++ cn)%string
                          (headers (account w))
                          (Names (first_name (account w)) (last_name (account w)))])
              Hall) as [Hrun Hlength].
  cbn [did account now objects requests events] in Hrun, Hlength.
  rewrite Hrun. eexists. split; [reflexivity|].
  cbn [account events].
  split; [rewrite <- app_assoc; reflexivity|].
  split.
  { rewrite !started_app, started_of_processes. cbn [started].
    rewrite app_nil_r. reflexivity. }
  split; [exact Hlength|].
  split; [|reflexivity].
  rewrite !notifications_app, notifications_of_processes. cbn [notifications].
  rewrite !app_nil_r. reflexivity.
Qed.

Lemma passed_over_bounds_witness :
  let E := Demo.with_server (Demo.env 0) Demo.familiar in
  let w := Demo.start (Demo.john [Demo.lax_jfk 7 "ABC123"]) 0 in
  exists w',
    _get_reservation_info E "XYZ789" w = Return tt w' /\
    List.length (started (events w')) = 2%nat /\
    flights (account w') = [Demo.lax_jfk 7 "ABC123"].
Proof.
  cbv zeta.
  destruct (passed_over_bounds_each_start_a_process
              (Demo.with_server (Demo.env 0) Demo.familiar) "XYZ789"
              [Demo.departed_bound; Demo.waiting_bound]
              (Demo.start (Demo.john [Demo.lax_jfk 7 "ABC123"]) 0) eq_refl)
    as (w' & Hrun & _ & Hstarted & Hlength & _ & Haccount).
  - constructor; [|constructor; [|constructor]].
    + eexists. split; [reflexivity | left; reflexivity].
    + eexists. split; [reflexivity | right; reflexivity].
  - exists w'. split; [exact Hrun|]. split.
    + rewrite Hstarted. exact Hlength.
    + rewrite Haccount. reflexivity.
Defined.

(** (X8) [_get_reservation_info] catches [CheckInError] and nothing else.
    When the request raises another exception, or its answer has no
    [viewReservationViewPage], the exception leaves the function and
    [send_notification] is not called.  The same holds when a bound's
    departure instant cannot be computed: the exception of the constructor
    ends the loop at that bound, after one process for each bound before it,
    and the bounds after it are never looked at. *)
Theorem other_retrieval_failures_are_not_reported (E : Env) (cn : string) (w : World) :
  let a := account w in
  let site := (VIEW_RESERVATION_URL ++ cn)%string in
  let info := Names (first_name a) (last_name a) in
  let reply := make_request_reply E (requests w) "GET" site (headers a) info in
  (forall e,
     (reply = inl e /\ is_CheckInError e = false)
     \/ (exists r, reply = inr r
                   /\ (forall bounds, r <> ViewReservationViewPage bounds)
                   /\ e = KeyError "viewReservationViewPage") ->
     exists w',
       _get_reservation_info E cn w = Raise e w' /\
       notifications (events w') = notifications (events w) /\
       started (events w') = started (events w) /\
       account w' = account w)
  /\ (forall before b rest,
        reply = inr (ViewReservationViewPage (before ++ b :: rest)) ->
        Forall (passed_over E (flights a)) before ->
        departure_of E b = None ->
        exists e w',
          _get_reservation_info E cn w = Raise e w' /\
          is_CheckInError e = false /\
          notifications (events w') = notifications (events w) /\
          started (events w')
            = started (events w) ++ spawned_for E cn before (objects w) /\
          account w' = account w).
Proof.
  cbv zeta. split.
  - intros e [[Hreply Hother] | (r & Hreply & Hother & ->)].
    + rewrite (retrieval_raises E cn w e Hreply Hother).
      eexists. split; [reflexivity|]. cbn [did account events].
      rewrite notifications_app, started_app. cbn. rewrite !app_nil_r.
      repeat split.
    + rewrite (retrieval_answered E cn w r Hreply).
      destruct r as [bounds | href body | bp];
        try (exfalso; apply (Hother bounds); reflexivity);
        (eexists; split; [reflexivity|]; cbn [did account events];
         rewrite notifications_app, started_app; cbn; rewrite !app_nil_r;
         repeat split).
  - intros before b rest Hreply Hall Hdeparture.
    rewrite (retrieval_answered E cn w _ Hreply).
    pose (w0 := did w 1 [Request "GET" (VIEW_RESERVATION_URL ++ cn)%string
                           (headers (account w))
                           (Names (first_name (account w)) (last_name (account w)))]).
    destruct (for_each_passed_over E cn before w0 Hall) as [Hrun _].
    match type of Hrun with _ = Return tt ?w1 =>
      destruct (schedule_bound_no_departure E cn b w1 Hdeparture) as (e & Hb & He)
    end.
    exists e. eexists. split.
    { apply (for_each_stops _ before b rest e w0 _ _ Hrun Hb). }
    split; [exact He|].
    cbn [w0 did account now objects requests events].
    rewrite !notifications_app, !started_app, notifications_of_processes,
      started_of_processes.
    cbn [notifications started]. rewrite !app_nil_r. repeat split.
Qed.

Lemma other_retrieval_failures_witness :
  let w := Demo.start (Demo.john []) 0 in
  (exists w',
     _get_reservation_info (Demo.with_server (Demo.env 0) Demo.confused) "ABC123" w
     = Raise (KeyError "viewReservationViewPage") w'
     /\ notifications (events w') = [])
  /\ (exists e w',
        _get_reservation_info (Demo.with_server (Demo.env 0) Demo.uncharted) "ABC123" w
        = Raise e w'
        /\ notifications (events w') = []
        /\ started (events w') = []).
Proof.
  cbv zeta. split.
  - destruct (proj1 (other_retrieval_failures_are_not_reported
                       (Demo.with_server (Demo.env 0) Demo.confused) "ABC123"
                       (Demo.start (Demo.john []) 0))
                (KeyError "viewReservationViewPage"))
      as (w' & Hrun & Hnotes & _).
    + right. exists (CheckInConfirmationPage Demo.boarding_pass).
      split; [reflexivity|]. split; [intros bounds; discriminate | reflexivity].
    + exists w'. split; [exact Hrun | exact Hnotes].
  - destruct (proj2 (other_retrieval_failures_are_not_reported
                       (Demo.with_server (Demo.env 0) Demo.uncharted) "ABC123"
                       (Demo.start (Demo.john []) 0))
                [] Demo.uncharted_bound [Demo.waiting_bound] eq_refl (Forall_nil _)
                eq_refl)
      as (e & w' & Hrun & _ & Hnotes & Hstarted & _).
    exists e, w'. split; [exact Hrun|]. split; [exact Hnotes | exact Hstarted].
Defined.

(** The loop of [get_flights] while the server refuses every request. *)
Lemma process_reservations_refused (E : Env) (reason : string)
    (reservations : list Reservation) :
  (forall n site h info,
     make_request_reply E n "GET" site h info = inl (CheckInError reason)) ->
  forall w,
    exists w',
      process_reservations E reservations w = Return tt w' /\
      notifications (events w')
        = notifications (events w)
          ++ map (fun r => (reservation_error_message (account w) (confirmationNumber r)
                              reason,
                            Some (NotificationLevel_ERROR E)))
               reservations /\
      requests w' = (List.length reservations + requests w)%nat /\
      started (events w') = started (events w) /\
      account w' = account w.
Proof.
  intros Hdown.
  induction reservations as [|r reservations IH]; intros w.
  - exists w. cbn. rewrite app_nil_r. repeat split.
  - unfold process_reservations. cbn [for_each]. unfold bind at 1.
    rewrite (retrieval_refused E (confirmationNumber r) w reason (Hdown _ _ _ _)).
    match goal with |- context [for_each reservations _ ?w1] =>
      destruct (IH w1) as (w' & Hrun & Hnotes & Hcount & Hstarted & Haccount)
    end.
    unfold process_reservations in Hrun.
    exists w'. split; [exact Hrun|].
    cbn [did account now objects requests events] in Hnotes, Hcount, Hstarted, Haccount.
    split.
    { rewrite Hnotes, !notifications_app, notifications_of_notification_events.
      cbn [notifications map app]. rewrite <- !app_assoc. reflexivity. }
    split; [rewrite Hcount; cbn [List.length]; lia|].
    split; [|exact Haccount].
    rewrite Hstarted, !started_app, started_of_notification_events.
    cbn [started]. rewrite !app_nil_r. reflexivity.
Qed.

(** (X14) While the server refuses every request with a [CheckInError], a
    batch of reservations is gone through to its end: one request and one
    call of [send_notification] per reservation, in the order of the batch,
    each with the level ERROR and the message of that confirmation number;
    no process is started, the account is unchanged, and the announcement of
    new flights that follows does nothing. *)
Theorem outage_is_reported_for_every_reservation (E : Env) (reason : string)
    (reservations : list Reservation) (w : World) :
  (forall n site h info,
     make_request_reply E n "GET" site h info = inl (CheckInError reason)) ->
  exists w',
    process_reservations E reservations w = Return tt w' /\
    notifications (events w')
      = notifications (events w)
        ++ map (fun r => (reservation_error_message (account w) (confirmationNumber r)
                            reason,
                          Some (NotificationLevel_ERROR E)))
             reservations /\
    requests w' = (List.length reservations + requests w)%nat /\
    started (events w') = started (events w) /\
    account w' = account w /\
    _send_new_flight_notifications E (List.length (flights (account w))) w' = Return tt w'.
Proof.
  intros Hdown.
  destruct (process_reservations_refused E reason reservations Hdown w)
    as (w' & Hrun & Hnotes & Hcount & Hstarted & Haccount).
  exists w'. repeat (split; [assumption|]).
  unfold _send_new_flight_notifications, bind, get.
  rewrite Haccount, Nat.eqb_refl. reflexivity.
Qed.

Lemma outage_witness :
  let E := Demo.with_server (Demo.env 0) Demo.down in
  exists w',
    process_reservations E
      [{| confirmationNumber := "ABC123" |}; {| confirmationNumber := "XYZ789" |}]
      (Demo.start (Demo.john []) 0) = Return tt w' /\
    List.length (notifications (events w')) = 2%nat /\
    requests w' = 2%nat.
Proof.
  cbv zeta.
  destruct (outage_is_reported_for_every_reservation
              (Demo.with_server (Demo.env 0) Demo.down) "503 Service Unavailable"
              [{| confirmationNumber := "ABC123" |}; {| confirmationNumber := "XYZ789" |}]
              (Demo.start (Demo.john []) 0) (fun _ _ _ _ => eq_refl))
    as (w' & Hrun & Hnotes & Hcount & _).
  exists w'. split; [exact Hrun|]. split; [|exact Hcount].
  rewrite Hnotes. reflexivity.
Defined.

(** *** Requests *)

Lemma quiet_ret {A} (x : A) : makes_no_request (ret x).
Proof. intros w. split; reflexivity. Qed.

Lemma quiet_raise {A} (e : Exception) : makes_no_request (@raise A e).
Proof. intros w. split; reflexivity. Qed.

Lemma quiet_get : makes_no_request get.
Proof. intros w. split; reflexivity. Qed.

Lemma quiet_set_account (a : Account) : makes_no_request (set_account a).
Proof. intros w. split; reflexivity. Qed.

Lemma quiet_new_object : makes_no_request new_object.
Proof. intros w. split; reflexivity. Qed.

Lemma quiet_emit (e : Event) :
  (forall method site h info, e <> Request method site h info) ->
  makes_no_request (emit e).
Proof.
  intros Hother w. unfold emit. cbn [final events].
  rewrite requested_app, request_headers_app.
  destruct e; try (cbn; rewrite !app_nil_r; split; reflexivity).
  exfalso. apply (Hother method site h info). reflexivity.
Qed.

Lemma quiet_bind {A B} (m : M A) (k : A -> M B) :
  makes_no_request m -> (forall x, makes_no_request (k x)) -> makes_no_request (bind m k).
Proof.
  intros Hm Hk w. unfold bind. specialize (Hm w).
  destruct (m w) as [x w1 | e w1]; cbn [final] in *; [|exact Hm].
  destruct (Hk x w1) as [H1 H2]. destruct Hm as [H3 H4].
  split; congruence.
Qed.

Lemma quiet_for_each {A} (xs : list A) (body : A -> M unit) :
  (forall x, makes_no_request (body x)) -> makes_no_request (for_each xs body).
Proof.
  intros Hbody. induction xs as [|x xs IH]; cbn [for_each].
  - apply quiet_ret.
  - apply quiet_bind; [apply Hbody | intros _; exact IH].
Qed.

Lemma quiet_send_notification (body : string) (level : option Z) :
  makes_no_request (send_notification body level).
Proof.
  intros w. rewrite send_notification_spec. cbn [final did events].
  rewrite requested_app, request_headers_app, requested_of_notification_events,
    request_headers_of_notification_events, !app_nil_r.
  split; reflexivity.
Qed.

Section Quiet.

Variable E : Env.

Lemma quiet_Flight__init__ (cn : string) (b : Bound) :
  makes_no_request (Flight__init__ E cn b).
Proof.
  intros w. destruct (departure_of E b) as [t|] eqn:Hdeparture.
  - rewrite (Flight__init__departure E cn b t w Hdeparture). cbn [final events].
    rewrite requested_app, request_headers_app. cbn. rewrite !app_nil_r.
    split; reflexivity.
  - destruct (Flight__init__no_departure E cn b w Hdeparture) as (e & -> & _).
    split; reflexivity.
Qed.

Lemma quiet_schedule_bound (cn : string) (b : Bound) :
  makes_no_request (schedule_bound E cn b).
Proof.
  unfold schedule_bound.
  apply quiet_bind; [apply quiet_Flight__init__ | intros flight].
  apply quiet_bind.
  - destruct (negb (String.eqb (departureStatus b) "DEPARTED")); [|apply quiet_ret].
    unfold _flight_is_scheduled.
    apply quiet_bind; [|intros scheduled; apply quiet_ret].
    apply quiet_bind; [apply quiet_get | intros w0; apply quiet_ret].
  - intros [|]; [|apply quiet_ret].
    apply quiet_bind; [apply quiet_raise | intros _].
    unfold flights_append.
    apply quiet_bind; [apply quiet_get | intros w0; apply quiet_set_account].
Qed.

Lemma quiet__send_new_flight_notifications (prev_flight_len : nat) :
  makes_no_request (_send_new_flight_notifications E prev_flight_len).
Proof.
  unfold _send_new_flight_notifications.
  apply quiet_bind; [apply quiet_get | intros w0].
  destruct (List.length (flights (account w0)) =? prev_flight_len)%nat;
    [apply quiet_ret | apply quiet_send_notification].
Qed.

(** [_get_reservation_info] makes one request, the first thing it does, with
    the headers of the account. *)
Lemma retrieval_is_one_request (cn : string) (w : World) :
  let w' := final (_get_reservation_info E cn w) in
  requested (events w')
    = requested (events w) ++ [("GET", (VIEW_RESERVATION_URL ++ cn)%string)]
  /\ request_headers (events w') = request_headers (events w) ++ [headers (account w)].
Proof.
  cbv zeta.
  destruct (make_request_reply E (requests w) "GET" (VIEW_RESERVATION_URL ++ cn)%string
              (headers (account w))
              (Names (first_name (account w)) (last_name (account w))))
    as [e | r] eqn:Hreply.
  - destruct (is_CheckInError e) eqn:He.
    + destruct e; try discriminate He.
      rewrite (retrieval_refused E cn w reason Hreply). cbn [final did events].
      rewrite !requested_app, !request_headers_app, requested_of_notification_events,
        request_headers_of_notification_events.
      cbn [requested request_headers app]. rewrite ?app_nil_r. split; reflexivity.
    + rewrite (retrieval_raises E cn w e Hreply He). cbn [final did events].
      rewrite !requested_app, !request_headers_app. split; reflexivity.
  - rewrite (retrieval_answered E cn w r Hreply).
    destruct r as [bounds | href body | bp];
      try (cbn [final did events]; rewrite !requested_app, !request_headers_app;
           split; reflexivity).
    destruct (quiet_for_each bounds (schedule_bound E cn) (quiet_schedule_bound cn)
                (did w 1 [Request "GET" (VIEW_RESERVATION_URL ++ cn)%string
                            (headers (account w))
                            (Names (first_name (account w)) (last_name (account w)))]))
      as [H1 H2].
    rewrite H1, H2. cbn [did events].
    rewrite !requested_app, !request_headers_app. split; reflexivity.
Qed.

End Quiet.

(** [refresh_headers], by what becomes of the fetch. *)
Lemma refresh_headers_spec (E : Env) (w : World) :
  refresh_headers E w
  = match WebDriver_headers E (now w) with
    | inl e =>
        Raise e {| account := account w; now := now w + WebDriver_elapsed E (now w);
                   objects := objects w; requests := requests w; events := events w |}
    | inr fresh =>
        Return tt
          {| account := set_headers (account w) fresh;
             now := now w + WebDriver_elapsed E (now w);
             objects := objects w; requests := requests w;
             events := events w ++ [Refresh_headers fresh] |}
    end.
Proof.
  unfold refresh_headers, bind, get, advance. cbn [account now objects requests events].
  destruct (WebDriver_headers E (now w)); reflexivity.
Qed.

(** (X13) [get_checkin_info] fetches new headers first and asks for the
    reservation with them.  When the fetch succeeds, then whatever the
    server answers the call makes exactly one request, the GET for this
    confirmation number, and that request carries the headers just fetched,
    which are also the headers the account holds afterwards.  When the fetch
    fails, the call fails with the exception of the fetch, having made no
    request and with the account as it was. *)
Theorem get_checkin_info_asks_once_with_fresh_headers (E : Env) (cn : string)
    (w : World) :
  let outcome := get_checkin_info E cn w in
  let w' := final outcome in
  match WebDriver_headers E (now w) with
  | inr fresh =>
      requested (events w')
        = requested (events w) ++ [("GET", (VIEW_RESERVATION_URL ++ cn)%string)]
      /\ request_headers (events w') = request_headers (events w) ++ [fresh]
      /\ headers (account w') = fresh
  | inl e =>
      outcome = Raise e w'
      /\ requested (events w') = requested (events w)
      /\ account w' = account w
  end.
Proof.
  cbv zeta.
  assert (Hrun :
    get_checkin_info E cn w
    = match refresh_headers E w with
      | Return _ w1 =>
          match _get_reservation_info E cn w1 with
          | Return _ w2 =>
              _send_new_flight_notifications E (List.length (flights (account w))) w2
          | Raise e w2 => Raise e w2
          end
      | Raise e w1 => Raise e w1
      end) by reflexivity.
  rewrite Hrun, refresh_headers_spec. clear Hrun.
  destruct (WebDriver_headers E (now w)) as [e | fresh].
  { cbn [final account events]. repeat split. }
  set (w1 := {| account := set_headers (account w) fresh;
                now := now w + WebDriver_elapsed E (now w);
                objects := objects w; requests := requests w;
                events := events w ++ [Refresh_headers fresh] |}).
  pose proof (retrieval_is_one_request E cn w1) as Hone.
  pose proof (keeps__get_reservation_info E cn w1) as Hkeeps.
  cbv zeta in Hone.
  destruct (_get_reservation_info E cn w1) as [[] w2 | e w2];
    cbn [w1 final account events set_headers headers] in Hone, Hkeeps;
    rewrite requested_app, request_headers_app in Hone;
    cbn [requested request_headers] in Hone; rewrite !app_nil_r in Hone;
    destruct Hone as [Hsites Hheaders].
  - destruct (quiet__send_new_flight_notifications E
                (List.length (flights (account w))) w2) as [H1 H2].
    pose proof (keeps__send_new_flight_notifications E
                  (List.length (flights (account w))) w2) as H3.
    rewrite H1, H2, H3, Hkeeps. repeat split; assumption.
  - cbn [final]. rewrite Hkeeps. repeat split; assumption.
Qed.

(** (X16) The scheduler never changes the list of tracked flights.  Whatever
    the server answers, the list after [_get_reservation_info],
    after [get_checkin_info] and after the loop of [get_flights] over any
    batch is the list before: a bound that is passed over appends nothing,
    and a bound that is to be scheduled raises at
    [flight.schedule_check_in()] before the append. *)
Theorem scheduler_never_changes_the_tracked_flights (E : Env) (w : World) :
  (forall cn,
     flights (account (final (_get_reservation_info E cn w))) = flights (account w))
  /\ (forall cn,
        flights (account (final (get_checkin_info E cn w))) = flights (account w))
  /\ (forall reservations,
        flights (account (final (process_reservations E reservations w)))
        = flights (account w)).
Proof.
  split; [|split].
  - intros cn. rewrite (keeps__get_reservation_info E cn w). reflexivity.
  - intros cn. apply (get_checkin_info_never_tracks E cn w).
  - intros reservations. rewrite (keeps_process_reservations E reservations w).
    reflexivity.
Qed.

(** One turn of the loop of [get_flights]. *)
Lemma process_reservations_step (E : Env) (r : Reservation)
    (reservations : list Reservation) (w : World) :
  process_reservations E (r :: reservations) w
  = match _get_reservation_info E (confirmationNumber r) w with
    | Return _ w1 => process_reservations E reservations w1
    | Raise e w1 => Raise e w1
    end.
Proof. reflexivity. Qed.

(** (X17) The loop of [get_flights] makes at most one request per
    reservation: the GETs for the confirmation numbers of the batch, in the
    order of the batch and each once, up to the reservation at which an
    exception ends the loop; when the loop returns, every reservation was
    asked for. *)
Theorem reservations_are_asked_for_once_and_in_order (E : Env)
    (reservations : list Reservation) :
  forall w,
    exists k,
      (k <= List.length reservations)%nat /\
      requested (events (final (process_reservations E reservations w)))
      = requested (events w)
        ++ map (fun r => ("GET", (VIEW_RESERVATION_URL ++ confirmationNumber r)%string))
             (firstn k reservations) /\
      match process_reservations E reservations w with
      | Return _ _ => k = List.length reservations
      | Raise _ _ => (1 <= k)%nat
      end.
Proof.
  induction reservations as [|r reservations IH]; intros w.
  - exists 0%nat. split; [apply Nat.le_0_l|].
    split; [cbn; rewrite app_nil_r; reflexivity | reflexivity].
  - rewrite process_reservations_step.
    pose proof (retrieval_is_one_request E (confirmationNumber r) w) as Hone.
    cbv zeta in Hone. destruct Hone as [Hsites _].
    destruct (_get_reservation_info E (confirmationNumber r) w) as [[] w1 | e w1];
      cbn [final] in Hsites.
    + destruct (IH w1) as (k & Hk & Hrest & Hall).
      exists (S k). split; [cbn [List.length]; lia|]. split.
      * rewrite Hrest, Hsites. cbn [firstn map]. rewrite <- app_assoc. reflexivity.
      * destruct (process_reservations E reservations w1);
          [cbn [List.length]; f_equal; exact Hall | lia].
    + exists 1%nat. split; [cbn [List.length]; lia|]. split.
      * cbn [final firstn map]. exact Hsites.
      * apply Nat.le_refl.
Qed.

(** *** The timer as a whole *)

(** (X18) The timer never checks in early.  The process of a flight makes
    its requests in [_check_in] only, and it enters [_check_in] when the
    wait has returned: with the clock at the check-in instant or later and
    no request made until then, so that everything the check-in does comes
    after everything the wait did.  When the wait fails, the process ends
    with the exception of the wait and has made no request. *)
Theorem timer_never_checks_in_early (E : Env) (self : Flight) (w : World) :
  let t := departure_time self - mk_timedelta 1 1 0 in
  match _wait_for_check_in E self t w with
  | Return _ w1 =>
      t <= now w1
      /\ requested (events w1) = requested (events w)
      /\ _set_check_in E self w = _check_in E self w1
      /\ exists tail, events (final (_set_check_in E self w)) = events w1 ++ tail
  | Raise e w1 =>
      _set_check_in E self w = Raise e w1
      /\ requested (events w1) = requested (events w)
  end.
Proof.
  cbv zeta.
  destruct (wait_outcomes E self (departure_time self - mk_timedelta 1 1 0) w)
    as (tail & Hevents & Hrequested & _ & _ & _ & Hcases).
  cbv zeta in Hevents, Hcases.
  unfold _set_check_in, bind.
  destruct (_wait_for_check_in E self (departure_time self - mk_timedelta 1 1 0) w)
    as [[] w1 | e w1]; cbn [final] in *.
  - split.
    { destruct Hcases as [(_ & _ & _ & u & _ & Hnow)
                         | [(_ & _ & _ & e & Hrun & _)
                           | (_ & _ & _ & [(u & _ & Hnow) | (e & Hrun)])]];
        first [exact Hnow | discriminate Hrun]. }
    split.
    { rewrite Hevents, requested_app, Hrequested, app_nil_r. reflexivity. }
    split; [reflexivity|].
    destruct (check_in_trace E self w1) as (n & tail' & _ & -> & _).
    exists tail'. reflexivity.
  - split; [reflexivity|].
    rewrite Hevents, requested_app, Hrequested, app_nil_r. reflexivity.
Qed.

(** The theorem above for John's flight and a process started two days
    before the departure, on the server that refuses every check-in: the
    wait returns at the check-in instant, 5 December, 13:29:59 UTC, without
    a request, and the one request of the process is the one [_check_in]
    makes from there. *)
Lemma timer_never_checks_in_early_witness :
  let self := Demo.lax_jfk 0 "ABC123" in
  let w := Demo.start (Demo.john [self]) (63774394200000000 - mk_timedelta 2 0 0) in
  exists w1,
    _wait_for_check_in (Demo.env 0) self 63774307799000000 w = Return tt w1
    /\ 63774307799000000 <= now w1
    /\ requested (events w1) = []
    /\ _set_check_in (Demo.env 0) self w = _check_in (Demo.env 0) self w1
    /\ requested (events (final (_check_in (Demo.env 0) self w1)))
       = [("GET", (CHECKIN_URL ++ "ABC123")%string)].
Proof.
  cbv zeta.
  pose proof (timer_never_checks_in_early (Demo.env 0) (Demo.lax_jfk 0 "ABC123")
                (Demo.start (Demo.john [Demo.lax_jfk 0 "ABC123"])
                   (63774394200000000 - mk_timedelta 2 0 0))) as H.
  cbv zeta in H.
  change (departure_time (Demo.lax_jfk 0 "ABC123") - mk_timedelta 1 1 0)
    with 63774307799000000 in H.
  destruct (_wait_for_check_in (Demo.env 0) (Demo.lax_jfk 0 "ABC123") 63774307799000000
              (Demo.start (Demo.john [Demo.lax_jfk 0 "ABC123"])
                 (63774394200000000 - mk_timedelta 2 0 0)))
    as [[] w1 | e w1] eqn:Hwait; [|vm_compute in Hwait; discriminate Hwait].
  destruct H as (Hnow & Hrequested & Hrun & _).
  exists w1. split; [reflexivity|]. split; [exact Hnow|].
  split; [exact Hrequested|]. split; [exact Hrun|].
  vm_compute in Hwait. injection Hwait as <-. vm_compute. reflexivity.
Defined.
